(** * get_sentences.py: line-driven search pipeline

    A shallow embedding of [get_sentences.py] and the properties of its
    line reader, query builder, passage extractor and orchestrator.

    Python values are modelled as follows.
    - [str] is a sequence of Unicode code points: [list N].
    - An [ElementTree] element is a rose tree carrying [tag], [text], [tail]
      and the ordered children.
    - The value returned by [search] is either [bytes] or an [int]: a
      two-constructor inductive type.
    - The outside world (the HTTP endpoint, the output file, the logging
      sink) is threaded through a small state monad.

    [requests.get], [ElementTree.fromstring] and the table
    [html.entities.html5] are parameters.  [html.unescape], [json.dumps],
    [str.strip] and [re.split] follow the CPython library.  The input file
    is the list of its lines and is a file other than the output file;
    failures to open, read or write a file are not modelled. *)

From Stdlib Require Import Strings.String Strings.Ascii Numbers.DecimalString.
From Stdlib Require Import List NArith ZArith Bool Lia Arith.
From Stdlib Require Init.Byte.
Import ListNotations.

Set Implicit Arguments.

Local Open Scope string_scope.
Local Open Scope list_scope.
Local Open Scope N_scope.

(** ** Python strings *)

Module PyStr.

(** A character is its code point; a string is the list of its characters. *)
Abbreviation char := N (only parsing).
Abbreviation str := (list N) (only parsing).

(** Literals are written as ASCII Rocq strings and read as code points. *)
Definition py (s : string) : str :=
  map N_of_ascii (list_ascii_of_string s).

Fixpoint str_eqb (a b : str) : bool :=
  match a, b with
  | [], [] => true
  | x :: a', y :: b' => N.eqb x y && str_eqb a' b'
  | _, _ => false
  end.

(** Truthiness of a string: [if s:]. *)
Definition truthy (s : str) : bool :=
  match s with [] => false | _ :: _ => true end.

(** [None == 'en'] is [False]; two strings compare by content. *)
Definition opt_str_eqb (a : option str) (b : str) : bool :=
  match a with
  | Some s => str_eqb s b
  | None => false
  end.

(** [x or ""] for an optional string. *)
Definition or_empty (a : option str) : str :=
  match a with
  | Some s => s
  | None => []
  end.

(** [sep.join(parts)]. *)
Fixpoint join (sep : str) (parts : list str) : str :=
  match parts with
  | [] => []
  | [p] => p
  | p :: rest => p ++ sep ++ join sep rest
  end.

(** [c in members] for a character. *)
Definition char_in (c : char) (members : str) : bool :=
  existsb (N.eqb c) members.

(** [str.isspace] on one code point (the table of CPython's
    [_PyUnicode_IsWhitespace]). *)
Definition isspace (c : char) : bool :=
  ((9 <=? c) && (c <=? 13)) || ((28 <=? c) && (c <=? 32))
  || (c =? 133) || (c =? 160) || (c =? 5760)
  || ((8192 <=? c) && (c <=? 8202))
  || (c =? 8232) || (c =? 8233) || (c =? 8239) || (c =? 8287)
  || (c =? 12288).

Fixpoint lstrip (s : str) : str :=
  match s with
  | [] => []
  | c :: s' => if isspace c then lstrip s' else s
  end.

Definition rstrip (s : str) : str := rev (lstrip (rev s)).

(** [s.strip()]: leading and trailing whitespace removed. *)
Definition strip (s : str) : str := rstrip (lstrip s).

(** [str(n)] and ['{}'.format(n)] for an [int]. *)
Definition str_of_int (z : Z) : str :=
  py (NilZero.string_of_int (Z.to_int z)).

Definition py_newline : str := [10].

(** ['{}'.format(x)] for [x] a string or [None]. *)
Definition format_opt (x : option str) : str :=
  match x with
  | Some s => s
  | None => py "None"
  end.

End PyStr.
Import PyStr.

(** ** Line Reader and Query Builder *)

(** [re.split('[ \t]', s)]: the pieces between consecutive separator
    characters; adjacent separators give empty pieces. *)
Definition is_space_or_tab (c : char) : bool := (c =? 32) || (c =? 9).

Fixpoint re_split_space_tab (s : str) : list str :=
  match s with
  | [] => [[]]
  | c :: s' =>
      if is_space_or_tab c then [] :: re_split_space_tab s'
      else match re_split_space_tab s' with
           | w :: ws => (c :: w) :: ws
           | [] => [[c]]
           end
  end.

(** The body of the loop of [get_lines_from_file]:
    [[x for x in re.split('[ \t]', line.strip()) if x]]. *)
Definition words_of_line (line : str) : list str :=
  filter truthy (re_split_space_tab (strip line)).

(** [get_lines_from_file]: the open file is the sequence of its lines, each
    with its line terminator, as the file iterator yields them. *)
Definition get_lines_from_file (tax_fh : list str) : list (list str) :=
  map words_of_line tax_fh.

(** [query_from_wordlist]: [' '.join(['+' + word for word in wordlist])]. *)
Definition query_from_wordlist (wordlist : list str) : str :=
  join (py " ") (map (fun word => py "+" ++ word) wordlist).


(** ** Document trees *)

(** An [xml.etree.ElementTree.Element]: [tag], [text] (the text before the
    first child, or [None]), [tail] (the text after the element's end tag and
    before its next sibling, or [None]) and the children in order. *)
#[warnings="-register-all"]
Inductive Element : Type :=
  Elem (tag : str) (text tail : option str) (children : list Element).

Definition tag (e : Element) : str :=
  match e with Elem t _ _ _ => t end.
Definition text (e : Element) : option str :=
  match e with Elem _ t _ _ => t end.
Definition tail (e : Element) : option str :=
  match e with Elem _ _ t _ => t end.
Definition children (e : Element) : list Element :=
  match e with Elem _ _ _ cs => cs end.

(** [Element.iter(tag)]: the element and its descendants in document order,
    restricted to those with the given tag; [iter None] is [elem.iter()]. *)
Definition tag_matches (wanted : option str) (e : Element) : bool :=
  match wanted with
  | None => true
  | Some t => str_eqb (tag e) t
  end.

Fixpoint iter (wanted : option str) (e : Element) : list Element :=
  (if tag_matches wanted e then [e] else [])
  ++ match e with
     | Elem _ _ _ cs => flat_map (iter wanted) cs
     end.

(** [gettext]: the loop over the children accumulates into [text]. *)
Fixpoint gettext (elem : Element) : str :=
  match elem with
  | Elem _ text0 _ cs =>
      fold_left
        (fun text subelem =>
           let text := text ++ gettext subelem in
           match tail subelem with
           | Some t => if truthy t then text ++ t else text
           | None => text
           end)
        cs (or_empty text0)
  end.

(** ** html.unescape *)

(** [html._invalid_charrefs]. *)
Definition invalid_charrefs (num : N) : option str :=
  match num with
  | 0x00 => Some [0xfffd] | 0x0d => Some [0x0d] | 0x80 => Some [0x20ac]
  | 0x81 => Some [0x81] | 0x82 => Some [0x201a] | 0x83 => Some [0x0192]
  | 0x84 => Some [0x201e] | 0x85 => Some [0x2026] | 0x86 => Some [0x2020]
  | 0x87 => Some [0x2021] | 0x88 => Some [0x02c6] | 0x89 => Some [0x2030]
  | 0x8a => Some [0x0160] | 0x8b => Some [0x2039] | 0x8c => Some [0x0152]
  | 0x8d => Some [0x8d] | 0x8e => Some [0x017d] | 0x8f => Some [0x8f]
  | 0x90 => Some [0x90] | 0x91 => Some [0x2018] | 0x92 => Some [0x2019]
  | 0x93 => Some [0x201c] | 0x94 => Some [0x201d] | 0x95 => Some [0x2022]
  | 0x96 => Some [0x2013] | 0x97 => Some [0x2014] | 0x98 => Some [0x02dc]
  | 0x99 => Some [0x2122] | 0x9a => Some [0x0161] | 0x9b => Some [0x203a]
  | 0x9c => Some [0x0153] | 0x9d => Some [0x9d] | 0x9e => Some [0x017e]
  | 0x9f => Some [0x0178]
  | _ => None
  end.

(** [html._invalid_codepoints]: the four ranges of the set and its other
    members. *)
Definition invalid_codepoints (num : N) : bool :=
  ((0x1 <=? num) && (num <=? 0x8))
  || ((0xe <=? num) && (num <=? 0x1f))
  || ((0x7f <=? num) && (num <=? 0x9f))
  || ((0xfdd0 <=? num) && (num <=? 0xfdef))
  || existsb (N.eqb num)
       [0xb; 0xfffe; 0xffff; 0x1fffe; 0x1ffff; 0x2fffe; 0x2ffff; 0x3fffe;
        0x3ffff; 0x4fffe; 0x4ffff; 0x5fffe; 0x5ffff; 0x6fffe; 0x6ffff;
        0x7fffe; 0x7ffff; 0x8fffe; 0x8ffff; 0x9fffe; 0x9ffff; 0xafffe;
        0xaffff; 0xbfffe; 0xbffff; 0xcfffe; 0xcffff; 0xdfffe; 0xdffff;
        0xefffe; 0xeffff; 0xffffe; 0xfffff; 0x10fffe; 0x10ffff].

(** Character classes of the pattern [html._charref]. *)
Definition is_digit (c : char) : bool := (48 <=? c) && (c <=? 57).

Definition is_hexdigit (c : char) : bool :=
  is_digit c || ((97 <=? c) && (c <=? 102)) || ((65 <=? c) && (c <=? 70)).

(** The class of tab, newline, form feed, space, [<], [&], [#] and [;],
    negated. *)
Definition is_name_char (c : char) : bool :=
  negb (char_in c [9; 10; 12; 32; 60; 38; 35; 59]).

(** Greedy repetition of a character class: the longest prefix in the class
    (of at most [n] characters for [span_upto]) and what follows it. *)
Fixpoint span (p : char -> bool) (s : str) : str * str :=
  match s with
  | [] => ([], [])
  | c :: s' =>
      if p c then let (a, b) := span p s' in (c :: a, b) else ([], s)
  end.

Fixpoint span_upto (n : nat) (p : char -> bool) (s : str) : str * str :=
  match n, s with
  | S n', c :: s' =>
      if p c then let (a, b) := span_upto n' p s' in (c :: a, b)
      else ([], s)
  | _, _ => ([], s)
  end.

(** The optional [;] that ends each alternative. *)
Definition opt_semicolon (s : str) : str * str :=
  match s with
  | c :: s' => if c =? 59 then ([c], s') else ([], s)
  | [] => ([], s)
  end.

(** A repetition of at least one character followed by the optional [;]:
    the matched text and the rest, when the repetition is not empty. *)
Definition run_then_semicolon (run : str * str) : option (str * str) :=
  let (a, r) := run in
  if truthy a
  then let (semi, rest) := opt_semicolon r in Some (a ++ semi, rest)
  else None.

Definition prepend (pre : str) (m : option (str * str)) : option (str * str) :=
  match m with
  | Some (g, rest) => Some (pre ++ g, rest)
  | None => None
  end.

(** One match of [_charref] at an ampersand: [s] is the text after the
    ampersand; the result is group 1 and the text after the match.  The
    alternatives are tried in the order of the pattern. *)
Definition match_charref (s : str) : option (str * str) :=
  match s with
  | [] => None
  | c :: s1 =>
      if c =? 35 then
        match run_then_semicolon (span is_digit s1) with
        | Some m => prepend [c] (Some m)
        | None =>
            match s1 with
            | x :: s2 =>
                if char_in x (py "xX")
                then prepend [c; x] (run_then_semicolon (span is_hexdigit s2))
                else None
            | [] => None
            end
        end
      else run_then_semicolon (span_upto 32 is_name_char s)
  end.

(** [int(digits, base)] on a string of digits of that base: the value of
    the digits.  CPython from 3.11 on raises [ValueError] for a decimal
    string of more than 4300 digits; the value given here is that of
    [int] within that limit. *)
Definition digit_value (c : char) : N :=
  if is_digit c then c - 48
  else if (97 <=? c) then c - 87
  else c - 55.

Definition int_of_digits (base : N) (digits : str) : N :=
  fold_left (fun acc c => acc * base + digit_value c) digits 0.

(** [s.rstrip(';')]. *)
Fixpoint lstrip_semicolons (s : str) : str :=
  match s with
  | c :: s' => if c =? 59 then lstrip_semicolons s' else s
  | [] => []
  end.

Definition rstrip_semicolons (s : str) : str :=
  rev (lstrip_semicolons (rev s)).

Section Unescape.

(** [html.entities.html5]: the table of named character references, keyed
    by the name with or without its final semicolon. *)
Variable html5 : str -> option str.

(** The loop [for x in range(len(s)-1, 1, -1)] of [_replace_charref],
    entered at [x], with its [else] branch. *)
Fixpoint longest_name (s : str) (x : nat) : str :=
  match x with
  | S (S _ as x') =>
      match html5 (firstn x s) with
      | Some v => v ++ skipn x s
      | None => longest_name s x'
      end
  | _ => py "&" ++ s
  end.

(** [html._replace_charref] on the text of group 1. *)
Definition replace_charref (s : str) : str :=
  match s with
  | [] => []
  | c0 :: s1 =>
      if c0 =? 35 then
        let num :=
          match s1 with
          | c1 :: s2 =>
              if char_in c1 (py "xX")
              then int_of_digits 16 (rstrip_semicolons s2)
              else int_of_digits 10 (rstrip_semicolons s1)
          | [] => 0
          end in
        match invalid_charrefs num with
        | Some v => v
        | None =>
            if ((0xD800 <=? num) && (num <=? 0xDFFF)) || (0x10FFFF <? num)
            then [0xFFFD]
            else if invalid_codepoints num then []
            else [num]
        end
      else
        match html5 s with
        | Some v => v
        | None => longest_name s (length s - 1)
        end
  end.

(** [_charref.sub(_replace_charref, s)]: the scan from left to right;
    [fuel] bounds the number of characters still to be scanned. *)
Fixpoint charref_sub (fuel : nat) (s : str) : str :=
  match fuel with
  | O => s
  | S fuel' =>
      match s with
      | [] => []
      | c :: s' =>
          if c =? 38 then
            match match_charref s' with
            | Some (g, rest) => replace_charref g ++ charref_sub fuel' rest
            | None => c :: charref_sub fuel' s'
            end
          else c :: charref_sub fuel' s'
      end
  end.

(** The scan of a whole string. *)
Definition scan (s : str) : str := charref_sub (List.length s) s.

(** [html.unescape]. *)
Definition unescape (s : str) : str :=
  if negb (char_in 38 s) then s
  else scan s.

(** ** Passage Extractor *)

(** The test on [element.tag]. *)
Definition wanted_tag (element : Element) : bool :=
  existsb (str_eqb (tag element)) [py "title"; py "headline"; py "passage"].

(** The inner loop of [get_all_passages] for one [doc], appending to
    [passages]. *)
Definition extract_doc (passages : list str) (doc : Element) : list str :=
  fold_left
    (fun passages element =>
       if wanted_tag element then
         match map text (iter (Some (py "lang")) doc) with
         | [] => passages
         | first_lang :: _ =>
             if opt_str_eqb first_lang (py "en")
             then passages ++ [unescape (gettext element)]
             else passages
         end
       else passages)
    (iter None doc) passages.

(** [get_all_passages]: the outer loop over [tree.iter('doc')]. *)
Definition get_all_passages (tree : Element) : list str :=
  fold_left extract_doc (iter (Some (py "doc")) tree) [].

End Unescape.

(** ** json.dumps on a list of strings, [ensure_ascii=False] *)

Definition hex_digit (n : N) : char :=
  if n <? 10 then 48 + n else 87 + n.

(** [json.encoder.ESCAPE_DCT] applied to the characters that
    [json.encoder.ESCAPE] matches; every other character is kept. *)
Definition escape_char (c : char) : str :=
  if c =? 92 then [92; 92]
  else if c =? 34 then [92; 34]
  else if c =? 8 then [92; 98]
  else if c =? 12 then [92; 102]
  else if c =? 10 then [92; 110]
  else if c =? 13 then [92; 114]
  else if c =? 9 then [92; 116]
  else if c <? 32 then [92; 117; 48; 48; hex_digit (c / 16); hex_digit (c mod 16)]
  else [c].

Definition encode_basestring (s : str) : str :=
  [34] ++ flat_map escape_char s ++ [34].

Definition json_dumps (items : list str) : str :=
  [91] ++ join (py ", ") (map encode_basestring items) ++ [93].

(** ** The outside world *)

Inductive Level := INFO | ERROR.

(** The fields of a [requests.Response] that [search] reads. *)
Record Response := { status_code : Z; content : list Byte.byte }.

(** The query parameters of the request. *)
Record Params := { param_l10n : str; param_user : str;
                   param_key : str; param_text : str }.

(** What [search] returns: the response contents ([bytes]) or the status
    code ([int]). *)
Inductive SearchResult :=
| Contents (body : list Byte.byte)
| StatusCode (code : Z).

(** How the body of [write_passages] is left: the loop ran to the end of the
    input, a [return] statement was executed, or an exception propagated. *)
Inductive Exit := Exhausted | Returned | Raised.

Definition search_url : str := py "https://yandex.com/search/xml".

(** [enumerate(xs)], counting from [start]. *)
Fixpoint enumerate_from {A : Type} (start : nat) (xs : list A) : list (nat * A) :=
  match xs with
  | [] => []
  | x :: xs' => (start, x) :: enumerate_from (S start) xs'
  end.

Section Pipeline.

Variable html5 : str -> option str.

(** The remote endpoint: its state, and [requests.get] as a transition on
    it that produces the response. *)
Variable Net : Type.
Variable requests_get : str -> Params -> Net -> Response * Net.

(** [ElementTree.fromstring]; [None] stands for a raised [ParseError]. *)
Variable fromstring : list Byte.byte -> option Element.

(** The state the program acts on: the endpoint, the requests sent to it
    so far, the strings written to the output file and the log records
    emitted, each in order. *)
Record World := {
  net : Net;
  sent : list (str * Params);
  result_fh : list str;
  log : list (Level * str)
}.

Definition M (A : Type) : Type := World -> A * World.

Definition ret {A : Type} (a : A) : M A := fun w => (a, w).

Definition bind {A B : Type} (m : M A) (k : A -> M B) : M B :=
  fun w => let (a, w') := m w in k a w'.

Notation "x <- m ;; k" := (bind m (fun x => k))
  (at level 61, m at next level, right associativity).
Notation "m ;; k" := (bind m (fun _ => k))
  (at level 61, right associativity).

Definition logging (level : Level) (message : str) : M unit :=
  fun w => (tt, {| net := net w; sent := sent w; result_fh := result_fh w;
                   log := log w ++ [(level, message)] |}).

Definition logging_info := logging INFO.
Definition logging_error := logging ERROR.

(** [open(output_filename, 'w')]: the file is created empty. *)
Definition open_w : M unit :=
  fun w => (tt, {| net := net w; sent := sent w; result_fh := [];
                   log := log w |}).

(** [result_fh.write(s)]. *)
Definition write (s : str) : M unit :=
  fun w => (tt, {| net := net w; sent := sent w;
                   result_fh := result_fh w ++ [s]; log := log w |}).

Definition http_get (url : str) (params : Params) : M Response :=
  fun w => let (response, net') := requests_get url params (net w) in
           (response, {| net := net'; sent := sent w ++ [(url, params)];
                         result_fh := result_fh w; log := log w |}).

(** [search]. *)
Definition search (query user key : str) : M SearchResult :=
  let data := {| param_l10n := py "en"; param_user := user;
                 param_key := key; param_text := query |} in
  response <- http_get search_url data ;;
  if (status_code response =? 200)%Z
  then ret (Contents (content response))
  else ret (StatusCode (status_code response)).

(** The [for] loop of [write_passages] over the enumerated word lists. *)
Fixpoint process_lines (user key : str) (items : list (nat * list str))
  : M Exit :=
  match items with
  | [] => ret Exhausted
  | (i, word_list) :: rest =>
      response <- search (query_from_wordlist word_list) user key ;;
      match response with
      | StatusCode code =>
          logging_error (py "Request for line "
                         ++ str_of_int (Z.of_nat (i + 1))
                         ++ py " failed, status code "
                         ++ str_of_int code) ;;
          logging_info (py "Exiting") ;;
          ret Returned
      | Contents body =>
          match fromstring body with
          | None => ret Raised
          | Some tree =>
              if existsb (str_eqb (py "error")) (map tag (iter None tree))
              then
                match map text (iter (Some (py "error")) tree) with
                | [] => ret Raised
                | error_message :: _ =>
                    logging_error (py "An error occurred at line "
                                   ++ str_of_int (Z.of_nat (i + 1))
                                   ++ py ": "
                                   ++ format_opt error_message) ;;
                    logging_info (py "Exiting") ;;
                    ret Returned
                end
              else
                let passages := get_all_passages html5 tree in
                write (json_dumps passages ++ py_newline) ;;
                (if (i mod 1000 =? 0)%nat
                 then logging_info (py "Processed "
                                    ++ str_of_int (Z.of_nat i)
                                    ++ py " lines")
                 else ret tt) ;;
                process_lines user key rest
          end
      end
  end.

(** [write_passages]; [tax_fh] is the content of the file named
    [taxonomy_filename], a file other than the output file. *)
Definition write_passages (taxonomy_filename : str) (tax_fh : list str)
    (output_filename user key : str) : M Exit :=
  let words_generator := get_lines_from_file tax_fh in
  open_w ;;
  logging_info (py "Searching Yandex for lines of " ++ taxonomy_filename) ;;
  logging_info (py "Writing results into " ++ output_filename) ;;
  exit <- process_lines user key (enumerate_from 0 words_generator) ;;
  match exit with
  | Exhausted => logging_info (py "Done") ;; ret Exhausted
  | _ => ret exit
  end.

End Pipeline.

Arguments net {Net} _.
Arguments sent {Net} _.
Arguments result_fh {Net} _.
Arguments log {Net} _.

(** ** Reference definitions for the properties *)

(** The tokens of a string as the maximal runs of characters other than
    space and tab. *)
Fixpoint maximal_runs (s : str) : list str :=
  match s with
  | [] => []
  | c :: s' =>
      if is_space_or_tab c then maximal_runs s'
      else match s' with
           | [] => [[c]]
           | d :: _ =>
               if is_space_or_tab d then [c] :: maximal_runs s'
               else match maximal_runs s' with
                    | w :: ws => (c :: w) :: ws
                    | [] => [[c]]
                    end
           end
  end.

(** A line without its trailing newline, when it has one. *)
Definition without_trailing_newline (line : str) : str :=
  match rev line with
  | c :: r => if c =? 10 then rev r else line
  | [] => line
  end.

(** The Line Reader as the specification words it: the line without its
    trailing newline, split on runs of spaces and tabs. *)
Definition spec_words_of_line (line : str) : list str :=
  maximal_runs (without_trailing_newline line).

(** The text that follows a child inside its parent. *)
Definition tail_text (e : Element) : str := or_empty (tail e).

(** The proper descendants of an element, in document order. *)
Definition descendants (e : Element) : list Element :=
  flat_map (iter None) (children e).

(** The text of the first [lang] node of a document, when there is one. *)
Definition first_lang (doc : Element) : option (option str) :=
  hd_error (map text (iter (Some (py "lang")) doc)).

(** The candidate nodes of a tree: for each [doc] whose first [lang] node
    reads [en], its nodes tagged [title], [headline] or [passage]. *)
Definition candidates_of_doc (doc : Element) : list Element :=
  match first_lang doc with
  | Some (Some l) =>
      if str_eqb l (py "en") then filter wanted_tag (iter None doc) else []
  | _ => []
  end.

Definition candidates (tree : Element) : list Element :=
  flat_map candidates_of_doc (iter (Some (py "doc")) tree).

(** A match whose text is followed by [suffix]. *)
Definition extend_rest (suffix : str) (m : option (str * str))
  : option (str * str) :=
  match m with
  | Some (g, rest) => Some (g, rest ++ suffix)
  | None => None
  end.

(** What happens to one input line, read off the provider's response. *)
Inductive LineOutcome :=
| Written (line : str)
| TransportFailure (code : Z)
| ProviderError (message : option str)
| Malformed.

Definition is_written (o : LineOutcome) : bool :=
  match o with Written _ => true | _ => false end.

(** The lines written before the first line that fails. *)
Fixpoint written_prefix (outcomes : list LineOutcome) : list str :=
  match outcomes with
  | Written line :: rest => line :: written_prefix rest
  | _ => []
  end.

(** The 0-based index of the first line that fails, if any does. *)
Fixpoint first_failure (outcomes : list LineOutcome) : option nat :=
  match outcomes with
  | [] => None
  | Written _ :: rest => option_map S (first_failure rest)
  | _ :: _ => Some 0%nat
  end.

Section Outcomes.

Variable html5 : str -> option str.
Variable Net : Type.
Variable requests_get : str -> Params -> Net -> Response * Net.
Variable fromstring : list Byte.byte -> option Element.
Variables user key : str.

Definition search_params (query : str) : Params :=
  {| param_l10n := py "en"; param_user := user;
     param_key := key; param_text := query |}.

(** The responses of the endpoint to a sequence of queries sent one after
    the other, starting from the state [n]. *)
Fixpoint replies (n : Net) (queries : list str) : list Response :=
  match queries with
  | [] => []
  | q :: qs =>
      let (r, n') := requests_get search_url (search_params q) n in
      r :: replies n' qs
  end.

(** The LineResult of a response, or the way it fails. *)
Definition outcome_of (r : Response) : LineOutcome :=
  if (status_code r =? 200)%Z then
    match fromstring (content r) with
    | None => Malformed
    | Some tree =>
        match iter (Some (py "error")) tree with
        | e :: _ => ProviderError (text e)
        | [] => Written (json_dumps (get_all_passages html5 tree) ++ py_newline)
        end
    end
  else TransportFailure (status_code r).

(** The responses to the queries of the lines of a file, one per line, when
    every line is sent. *)
Definition responses (n : Net) (tax_fh : list str) : list Response :=
  replies n (map query_from_wordlist (get_lines_from_file tax_fh)).

(** The outcomes of the lines of a file, one per line. *)
Definition outcomes (n : Net) (tax_fh : list str) : list LineOutcome :=
  map outcome_of (responses n tax_fh).

(** The requests for the lines of a file, one per line. *)
Definition requests_for (tax_fh : list str) : list (str * Params) :=
  map (fun words => (search_url, search_params (query_from_wordlist words)))
      (get_lines_from_file tax_fh).

End Outcomes.

(** The two log records of a halt. *)
Definition transport_failure_log (i : nat) (code : Z) : list (Level * str) :=
  [(ERROR, py "Request for line " ++ str_of_int (Z.of_nat (i + 1))
           ++ py " failed, status code " ++ str_of_int code);
   (INFO, py "Exiting")].

Definition provider_error_log (i : nat) (message : option str)
  : list (Level * str) :=
  [(ERROR, py "An error occurred at line " ++ str_of_int (Z.of_nat (i + 1))
           ++ py ": " ++ format_opt message);
   (INFO, py "Exiting")].

(** The progress record of line [i], emitted every 1000 lines. *)
Definition progress_log (i : nat) : list (Level * str) :=
  if (i mod 1000 =? 0)%nat
  then [(INFO, py "Processed " ++ str_of_int (Z.of_nat i) ++ py " lines")]
  else [].

(** How the loop ends and what it has logged after the records [before],
    given the outcomes of the lines it was started on; [i] is the index of
    the first of these lines. *)
Definition loop_end {Net : Type} (i : nat) (os : list LineOutcome)
    (before : list (Level * str)) (run : Exit * World Net) : Prop :=
  exists progress,
    Forall (fun r => fst r = INFO) progress
    /\ match first_failure os with
       | None => fst run = Exhausted /\ log (snd run) = before ++ progress
       | Some k =>
           match nth_error os k with
           | Some (TransportFailure code) =>
               fst run = Returned
               /\ log (snd run)
                  = before ++ progress ++ transport_failure_log (i + k) code
           | Some (ProviderError message) =>
               fst run = Returned
               /\ log (snd run)
                  = before ++ progress ++ provider_error_log (i + k) message
           | Some Malformed =>
               fst run = Raised /\ log (snd run) = before ++ progress
           | _ => False
           end
       end.

(** The two records logged before the loop. *)
Definition header_log (taxonomy_filename output_filename : str)
  : list (Level * str) :=
  [(INFO, py "Searching Yandex for lines of " ++ taxonomy_filename);
   (INFO, py "Writing results into " ++ output_filename)].

Section Halt.

Variable html5 : str -> option str.
Variable Net : Type.
Variable requests_get : str -> Params -> Net -> Response * Net.
Variable fromstring : list Byte.byte -> option Element.
Variables user key : str.

(** What a halt at line [i] leaves behind: the exit through [return], the
    log ending in the given records after informational records only, the
    requests for the lines up to [i] and no other, and the LineResults of
    the lines before [i] in the output file. *)
Definition halted_at (taxonomy_filename : str) (tax_fh : list str)
    (output_filename : str) (w : World Net) (i : nat)
    (last_records : list (Level * str)) : Prop :=
  let os := outcomes html5 requests_get fromstring user key (net w) tax_fh in
  let run := write_passages html5 requests_get fromstring taxonomy_filename tax_fh output_filename user key w in
  fst run = Returned
  /\ (exists progress,
         Forall (fun r => fst r = INFO) progress
         /\ log (snd run)
            = log w ++ header_log taxonomy_filename output_filename
                    ++ progress ++ last_records)
  /\ sent (snd run) = sent w ++ firstn (S i) (requests_for user key tax_fh)
  /\ List.length (result_fh (snd run)) = i
  /\ map Written (result_fh (snd run)) = firstn i os.

End Halt.

(** ** Example data *)

Definition small_html5 (name : str) : option str :=
  if str_eqb name (py "amp;") then Some (py "&")
  else if str_eqb name (py "amp") then Some (py "&")
  else if str_eqb name (py "lt;") then Some (py "<")
  else if str_eqb name (py "lt") then Some (py "<")
  else if str_eqb name (py "not") then Some [172]
  else None.

Definition leaf (tg txt : string) : Element :=
  Elem (py tg) (Some (py txt)) None [].

(** [<passage>A <b>B</b> C</passage>]. *)
Definition passage_abc : Element :=
  Elem (py "passage") (Some (py "A ")) None
       [Elem (py "b") (Some (py "B")) (Some (py " C")) []].

(** A document marked [ru] with a title, a headline and a passage. *)
Definition doc_ru : Element :=
  Elem (py "doc") None None
       [leaf "lang" "ru"; leaf "title" "Privet"; leaf "headline" "Mir";
        passage_abc].

(** A document with no [lang] node. *)
Definition doc_nolang : Element :=
  Elem (py "doc") None None [leaf "title" "Hello"; passage_abc].

(** A document marked [en] whose title contains a passage. *)
Definition title_nested : Element :=
  Elem (py "title") (Some (py "Tom ")) None [leaf "passage" "and Jerry"].

Definition doc_nested : Element :=
  Elem (py "doc") None None [leaf "lang" "en"; title_nested].




(** A document marked [en] whose title reads [Fish &amp; chips]. *)
Definition doc_amp : Element :=
  Elem (py "doc") None None
       [leaf "lang" "en"; leaf "title" "Fish &amp; chips"].

(** The responses of the two scenarios: a result page with one English
    document titled [Hello World], and a page reporting an error. *)
Definition tree_hello : Element :=
  Elem (py "yandexsearch") None None
       [Elem (py "doc") None None
             [leaf "lang" "en"; leaf "title" "Hello World"]].

Definition tree_quota : Element :=
  Elem (py "yandexsearch") None None [leaf "error" "quota exceeded"].

Definition body_hello : list Byte.byte :=
  list_byte_of_string
    "<yandexsearch><doc><lang>en</lang><title>Hello World</title></doc></yandexsearch>".

Definition body_quota : list Byte.byte :=
  list_byte_of_string
    "<yandexsearch><error>quota exceeded</error></yandexsearch>".

Definition bytes_eqb (a b : list Byte.byte) : bool :=
  str_eqb (map (fun x => N.of_nat (Byte.to_nat x)) a)
          (map (fun x => N.of_nat (Byte.to_nat x)) b).

(** A parser that knows the two bodies above and rejects everything else. *)
Definition mock_fromstring (body : list Byte.byte) : option Element :=
  if bytes_eqb body body_hello then Some tree_hello
  else if bytes_eqb body body_quota then Some tree_quota
  else None.

(** A provider determined by the query alone: [403] for [+foo], the error
    page for [+quota], the result page otherwise. *)
Definition mock_answer (url : str) (params : Params) : Response :=
  if str_eqb (param_text params) (py "+foo")
  then {| status_code := 403; content := [] |}
  else if str_eqb (param_text params) (py "+quota")
  then {| status_code := 200; content := body_quota |}
  else {| status_code := 200; content := body_hello |}.

(** The same provider without state, and with a state that counts the
    requests. *)
Definition mock_get (url : str) (params : Params) (n : unit)
  : Response * unit :=
  (mock_answer url params, n).

Definition counting_get (url : str) (params : Params) (n : nat)
  : Response * nat :=
  (mock_answer url params, S n).

Definition initial_world {Net : Type} (n : Net) : World Net :=
  {| net := n; sent := []; result_fh := []; log := [] |}.

(** The input file of the first scenario: two lines. *)
Definition file_hello_foo : list str :=
  [py "hello world" ++ py_newline; py "foo" ++ py_newline].

(** The input file of the second scenario: the fifth line meets the error. *)
Definition file_quota : list str :=
  [py "one" ++ py_newline; py "two" ++ py_newline; py "three" ++ py_newline;
   py "four" ++ py_newline; py "quota" ++ py_newline; py "six" ++ py_newline].

(** A line that ends in a no-break space before its newline. *)
Definition line_nbsp : str := py "cat" ++ [160; 10].

Definition response_403 : Response :=
  {| status_code := 403; content := [] |}.

Definition response_quota : Response :=
  {| status_code := 200; content := body_quota |}.

(** ** Reference definitions for the further properties *)

(** A Unicode scalar value: a code point up to U+10FFFF that is no
    surrogate. *)
Definition scalar_value (c : char) : Prop :=
  c <= 0x10FFFF /\ (c < 0xD800 \/ 0xDFFF < c).

(** The texts of a tree are scalar when the text and the tail of each of
    its nodes are. *)
Definition scalar_texts (tree : Element) : Prop :=
  forall d, In d (iter None tree) ->
            Forall scalar_value (or_empty (text d))
            /\ Forall scalar_value (tail_text d).

(** A token as the Line Reader makes them: not empty, no space, no tab. *)
Definition clean_token (w : str) : Prop :=
  w <> [] /\ forallb (fun c => negb (is_space_or_tab c)) w = true.

(** The records logged for the line of index [i] when it fails. *)
Definition failure_log (i : nat) (o : LineOutcome) : list (Level * str) :=
  match o with
  | TransportFailure code => transport_failure_log i code
  | ProviderError message => provider_error_log i message
  | _ => []
  end.

(** The number of lines a run sends a request for. *)
Definition requests_made (os : list LineOutcome) : nat :=
  match first_failure os with
  | Some i => S i
  | None => List.length os
  end.

Section NetAfter.

Variable Net : Type.
Variable requests_get : str -> Params -> Net -> Response * Net.
Variables user key : str.

(** The state of the endpoint after it has answered the given queries. *)
Fixpoint net_after (n : Net) (queries : list str) : Net :=
  match queries with
  | [] => n
  | q :: qs =>
      net_after (snd (requests_get search_url (search_params user key q) n)) qs
  end.

End NetAfter.

(** A provider that answers [+garbage] with a body that is no document. *)
Definition garbage_answer (url : str) (params : Params) : Response :=
  if str_eqb (param_text params) (py "+garbage")
  then {| status_code := 200; content := list_byte_of_string "<yandexsearch>" |}
  else mock_answer url params.

Definition garbage_get (url : str) (params : Params) (n : nat)
  : Response * nat :=
  (garbage_answer url params, S n).

Definition file_garbage : list str :=
  [py "one" ++ py_newline; py "garbage" ++ py_newline; py "three" ++ py_newline].

(** * Properties *)

(** ** Strings *)

Lemma str_eqb_eq (a b : str) : str_eqb a b = true <-> a = b.
Proof.
  revert b; induction a as [|x a IH]; intros [|y b]; simpl;
    try (split; congruence).
  rewrite andb_true_iff, N.eqb_eq, IH.
  split; [intros [-> ->]; reflexivity | intros H; inversion H; auto].
Qed.

Lemma str_eqb_refl (a : str) : str_eqb a a = true.
Proof. apply str_eqb_eq; reflexivity. Qed.

Lemma str_eqb_neq (a b : str) : str_eqb a b = false <-> a <> b.
Proof.
  rewrite <- str_eqb_eq. destruct (str_eqb a b); split; congruence.
Qed.

(** ** Query Builder *)

Lemma join_cons (sep p : str) (rest : list str) :
  join sep (p :: rest) = p ++ flat_map (fun x => sep ++ x) rest.
Proof.
  revert p; induction rest as [|q rest IH]; intros p.
  - simpl. now rewrite app_nil_r.
  - change (join sep (p :: q :: rest)) with (p ++ sep ++ join sep (q :: rest)).
    rewrite IH. simpl. now rewrite <- !app_assoc.
Qed.

(** C6.  The query of a word group is each token prefixed with [+], the
    prefixed tokens separated by single spaces: the first token carries a
    [+], every later one a space and a [+].  The tokens [cat], [dog] give
    [+cat +dog] and the empty word group gives the empty string. *)
Theorem query_from_wordlist_spec :
  query_from_wordlist [] = []
  /\ query_from_wordlist [py "cat"; py "dog"] = py "+cat +dog"
  /\ (forall word, query_from_wordlist [word] = py "+" ++ word)
  /\ forall word rest,
       query_from_wordlist (word :: rest)
       = (py "+" ++ word) ++ flat_map (fun w => py " " ++ py "+" ++ w) rest.
Proof.
  repeat split.
  - intros word rest. unfold query_from_wordlist.
    cbn [map]. rewrite join_cons. f_equal.
    induction rest as [|w rest IH]; [reflexivity|].
    cbn [map flat_map]. now rewrite IH.
Qed.

(** ** Line Reader *)

Lemma re_split_space_tab_cons (s : str) :
  exists w ws, re_split_space_tab s = w :: ws.
Proof.
  destruct s as [|c s]; simpl; [eauto|].
  destruct (is_space_or_tab c); [eauto|].
  destruct (re_split_space_tab s); eauto.
Qed.

Lemma filter_re_split (s : str) :
  filter truthy (re_split_space_tab s) = maximal_runs s.
Proof.
  induction s as [|c s IH]; [reflexivity|].
  cbn [re_split_space_tab maximal_runs].
  destruct (is_space_or_tab c) eqn:Hc; [exact IH|].
  destruct s as [|d s]; [reflexivity|].
  rewrite <- IH. cbn [re_split_space_tab].
  destruct (is_space_or_tab d) eqn:Hd; [reflexivity|].
  destruct (re_split_space_tab s) as [|w ws]; reflexivity.
Qed.

Lemma maximal_runs_tokens (s : str) :
  Forall (fun w => w <> []
                   /\ forallb (fun c => negb (is_space_or_tab c)) w = true)
         (maximal_runs s).
Proof.
  induction s as [|c s IH]; [constructor|].
  cbn [maximal_runs].
  destruct (is_space_or_tab c) eqn:Hc; [exact IH|].
  assert (Hone : [c] <> []
                 /\ forallb (fun c => negb (is_space_or_tab c)) [c] = true).
  { split; [discriminate|]. simpl. now rewrite Hc. }
  destruct s as [|d s]; [constructor; auto|].
  destruct (is_space_or_tab d); [constructor; auto|].
  destruct (maximal_runs (d :: s)) as [|w ws]; [constructor; auto|].
  inversion IH as [|? ? [_ Hw] Hws]; subst.
  constructor; [|assumption].
  split; [discriminate|]. simpl. now rewrite Hc, Hw.
Qed.

(** C8, as the specification words it, fails: on the line [cat] followed by
    a no-break space and a newline the Line Reader yields the token [cat],
    while splitting the line without its newline on spaces and tabs keeps
    the no-break space in the token. *)
Lemma words_of_line_not_spec :
  words_of_line line_nbsp = [py "cat"]
  /\ spec_words_of_line line_nbsp = [py "cat" ++ [160]]
  /\ words_of_line line_nbsp <> spec_words_of_line line_nbsp.
Proof.
  repeat split. vm_compute. discriminate.
Qed.

(** C8, amended.  The Line Reader yields, for every line, the maximal runs
    of characters other than space and tab of the stripped line (all leading
    and trailing whitespace removed, the newline included); the tokens are
    not empty and hold no space or tab; every line yields one word group,
    in order, the empty one when the line has no token. *)
Theorem get_lines_from_file_spec :
  (forall line,
      words_of_line line = maximal_runs (strip line)
      /\ Forall (fun w => w <> []
                   /\ forallb (fun c => negb (is_space_or_tab c)) w = true)
                (words_of_line line))
  /\ (forall tax_fh,
        List.length (get_lines_from_file tax_fh) = List.length tax_fh
        /\ forall i, nth_error (get_lines_from_file tax_fh) i
                     = option_map words_of_line (nth_error tax_fh i))
  /\ get_lines_from_file [py_newline] = [[]].
Proof.
  split; [|split].
  - intros line. unfold words_of_line. rewrite filter_re_split.
    split; [reflexivity | apply maximal_runs_tokens].
  - intros tax_fh. unfold get_lines_from_file. split.
    + apply length_map.
    + intros i. apply nth_error_map.
  - reflexivity.
Qed.

(** ** Document trees *)

Section ElementInduction.

Variable P : Element -> Prop.
Hypothesis step :
  forall tg tx tl cs, Forall P cs -> P (Elem tg tx tl cs).

Fixpoint Element_forall_ind (e : Element) : P e :=
  match e with
  | Elem tg tx tl cs =>
      step tg tx tl
        ((fix all (l : list Element) : Forall P l :=
            match l with
            | [] => Forall_nil P
            | c :: l' => Forall_cons c (Element_forall_ind c) (all l')
            end) cs)
  end.

End ElementInduction.

Lemma iter_None (e : Element) : iter None e = e :: descendants e.
Proof. destruct e; reflexivity. Qed.

Lemma iter_Some_filter (t : str) (e : Element) :
  iter (Some t) e = filter (fun x => str_eqb (tag x) t) (iter None e).
Proof.
  induction e as [tg tx tl cs IH] using Element_forall_ind.
  assert (Hcs : flat_map (iter (Some t)) cs
                = filter (fun x => str_eqb (tag x) t)
                         (flat_map (iter None) cs)).
  { induction IH as [|c cs Hc _ IHcs]; [reflexivity|].
    cbn [flat_map]. rewrite filter_app, Hc, IHcs. reflexivity. }
  cbn [iter tag_matches tag app filter]. rewrite Hcs.
  destruct (str_eqb tg t); reflexivity.
Qed.

Lemma gettext_fold (acc : str) (cs : list Element) :
  fold_left
    (fun text subelem =>
       let text := text ++ gettext subelem in
       match tail subelem with
       | Some t => if truthy t then text ++ t else text
       | None => text
       end) cs acc
  = acc ++ flat_map (fun c => gettext c ++ tail_text c) cs.
Proof.
  revert acc; induction cs as [|c cs IH]; intros acc; cbn [fold_left flat_map].
  - now rewrite app_nil_r.
  - rewrite IH. cbv zeta. unfold tail_text, or_empty.
    destruct (tail c) as [[|x t]|]; cbn [truthy];
      rewrite <- ?app_assoc, ?app_nil_r; reflexivity.
Qed.

(** C3.  The flattened text of an element is its own text followed by, for
    each child in order, the flattened text of the child and then the
    child's tail text; [<passage>A <b>B</b> C</passage>] flattens to
    [A B C]. *)
Theorem gettext_spec :
  (forall elem,
      gettext elem
      = or_empty (text elem)
        ++ flat_map (fun c => gettext c ++ tail_text c) (children elem))
  /\ gettext passage_abc = py "A B C".
Proof.
  split; [|reflexivity].
  intros [tg tx tl cs]. cbn [gettext text children].
  apply gettext_fold.
Qed.

Lemma iter_subtree (a e : Element) :
  In a (iter None e) ->
  exists l1 l2, iter None e = l1 ++ iter None a ++ l2.
Proof.
  induction e as [tg tx tl cs IH] using Element_forall_ind.
  rewrite iter_None. intros [<- | Hin].
  - exists [], []. rewrite app_nil_r, iter_None. reflexivity.
  - unfold descendants in *. cbn [children] in *.
    apply in_flat_map in Hin as (c & Hc & Ha).
    rewrite Forall_forall in IH.
    destruct (IH c Hc Ha) as (m1 & m2 & Hm).
    apply in_split in Hc as (cs1 & cs2 & ->).
    rewrite flat_map_app. cbn [flat_map]. rewrite Hm.
    exists (Elem tg tx tl (cs1 ++ c :: cs2) :: flat_map (iter None) cs1 ++ m1),
           (m2 ++ flat_map (iter None) cs2).
    cbn [app]. now rewrite <- !app_assoc.
Qed.


(** ** Passage Extractor *)

Section Extractor.

Variable html5 : str -> option str.

Local Abbreviation flattened := (fun e => unescape html5 (gettext e)).

Lemma append_loop (keep : bool) (elements : list Element) (passages : list str) :
  fold_left
    (fun passages element =>
       if wanted_tag element then
         if keep then passages ++ [flattened element] else passages
       else passages)
    elements passages
  = passages
    ++ (if keep then map flattened (filter wanted_tag elements) else []).
Proof.
  revert passages; induction elements as [|e l IH]; intros passages;
    cbn [fold_left filter].
  - destruct keep; now rewrite app_nil_r.
  - rewrite IH. destruct (wanted_tag e), keep; cbn [map];
      rewrite <- ?app_assoc; reflexivity.
Qed.

Lemma extract_doc_eq (passages : list str) (doc : Element) :
  extract_doc html5 passages doc
  = passages ++ map flattened (candidates_of_doc doc).
Proof.
  unfold extract_doc, candidates_of_doc, first_lang.
  destruct (map text (iter (Some (py "lang")) doc)) as [|l rest];
    cbn [hd_error].
  - rewrite (append_loop false). reflexivity.
  - rewrite (append_loop (opt_str_eqb l (py "en"))).
    destruct l as [l|]; cbn [opt_str_eqb]; [destruct (str_eqb l _)|];
      reflexivity.
Qed.

Lemma extract_docs_eq (docs : list Element) (acc : list str) :
  fold_left (extract_doc html5) docs acc
  = acc ++ map flattened (flat_map candidates_of_doc docs).
Proof.
  revert acc; induction docs as [|d docs IH]; intros acc;
    cbn [fold_left flat_map map].
  - now rewrite app_nil_r.
  - rewrite IH, extract_doc_eq, map_app, app_assoc. reflexivity.
Qed.

Lemma get_all_passages_eq (tree : Element) :
  get_all_passages html5 tree = map flattened (candidates tree).
Proof. apply extract_docs_eq. Qed.

Lemma candidates_of_doc_en (doc : Element) :
  candidates_of_doc doc <> [] -> first_lang doc = Some (Some (py "en")).
Proof.
  unfold candidates_of_doc.
  destruct (first_lang doc) as [[l|]|]; try congruence.
  destruct (str_eqb l (py "en")) eqn:E; [|congruence].
  apply str_eqb_eq in E. now subst.
Qed.

Lemma candidates_of_doc_other (doc : Element) :
  first_lang doc <> Some (Some (py "en")) -> candidates_of_doc doc = [].
Proof.
  intros H. destruct (candidates_of_doc doc) eqn:E; [reflexivity|].
  exfalso. apply H, candidates_of_doc_en. congruence.
Qed.

(** C2.  A [doc] whose first [lang] node does not read [en] exactly, and a
    [doc] with no [lang] node, add nothing to the passages, whatever nodes
    they contain; a [doc] that adds something has a first [lang] node that
    reads [en]; a tree none of whose [doc] nodes passes the test yields no
    passage. *)
Theorem language_filter (passages : list str) (doc tree : Element) :
  (forall l, first_lang doc = Some l -> l <> Some (py "en") ->
             extract_doc html5 passages doc = passages)
  /\ (iter (Some (py "lang")) doc = [] ->
      extract_doc html5 passages doc = passages)
  /\ (extract_doc html5 passages doc <> passages ->
      first_lang doc = Some (Some (py "en")))
  /\ ((forall d, In d (iter (Some (py "doc")) tree) ->
                 first_lang d <> Some (Some (py "en"))) ->
      get_all_passages html5 tree = []).
Proof.
  repeat split.
  - intros l Hl Hne. rewrite extract_doc_eq, candidates_of_doc_other.
    + apply app_nil_r.
    + congruence.
  - intros Hnone. rewrite extract_doc_eq, candidates_of_doc_other.
    + apply app_nil_r.
    + unfold first_lang. rewrite Hnone. discriminate.
  - intros Hchanged. apply candidates_of_doc_en.
    intros Hnil. apply Hchanged.
    rewrite extract_doc_eq, Hnil. apply app_nil_r.
  - intros Hall. rewrite get_all_passages_eq. unfold candidates.
    replace (flat_map candidates_of_doc (iter (Some (py "doc")) tree))
      with (@nil Element); [reflexivity|].
    symmetry.
    induction (iter (Some (py "doc")) tree) as [|d docs IH]; [reflexivity|].
    cbn [flat_map]. rewrite candidates_of_doc_other, IH;
      auto with datatypes.
Qed.


End Extractor.

Lemma language_filter_witness :
  extract_doc small_html5 [] doc_ru = []
  /\ extract_doc small_html5 [] doc_nolang = []
  /\ get_all_passages small_html5
       (Elem (py "yandexsearch") None None [doc_ru; doc_nolang]) = [].
Proof.
  destruct (language_filter small_html5 [] doc_ru
              (Elem (py "yandexsearch") None None [doc_ru; doc_nolang]))
    as (Hru & _ & _ & Htree).
  destruct (language_filter small_html5 [] doc_nolang doc_nolang)
    as (_ & Hnone & _).
  split; [|split].
  - apply (Hru (Some (py "ru"))); [reflexivity|].
    intros H. vm_compute in H. discriminate.
  - apply Hnone. reflexivity.
  - apply Htree. intros d Hd. vm_compute in Hd.
    destruct Hd as [<- | [<- | []]]; vm_compute; discriminate.
Defined.






(** ** html.unescape *)

Lemma span_app (p : char -> bool) (u : str) (c : char) (t : str) :
  p c = false ->
  span p (u ++ c :: t) = (fst (span p u), snd (span p u) ++ c :: t).
Proof.
  intros Hc. induction u as [|x u IH]; cbn [app span].
  - now rewrite Hc.
  - destruct (p x); [|reflexivity].
    rewrite IH. destruct (span p u); reflexivity.
Qed.

Lemma span_upto_app (n : nat) (p : char -> bool) (u : str) (c : char) (t : str) :
  p c = false ->
  span_upto n p (u ++ c :: t)
  = (fst (span_upto n p u), snd (span_upto n p u) ++ c :: t).
Proof.
  intros Hc. revert u; induction n as [|n IH]; intros u.
  - destruct u; reflexivity.
  - destruct u as [|x u]; cbn [app span_upto].
    + now rewrite Hc.
    + destruct (p x); [|reflexivity].
      rewrite IH. destruct (span_upto n p u); reflexivity.
Qed.

Lemma span_rest_length (p : char -> bool) (s : str) :
  (List.length (snd (span p s)) <= List.length s)%nat.
Proof.
  induction s as [|x s IH]; cbn [span]; [reflexivity|].
  destruct (p x); [|reflexivity].
  destruct (span p s); cbn [snd List.length] in *. lia.
Qed.

Lemma span_upto_rest_length (n : nat) (p : char -> bool) (s : str) :
  (List.length (snd (span_upto n p s)) <= List.length s)%nat.
Proof.
  revert s; induction n as [|n IH]; intros s.
  - destruct s; reflexivity.
  - destruct s as [|x s]; cbn [span_upto]; [reflexivity|].
    destruct (p x); [|reflexivity].
    specialize (IH s). destruct (span_upto n p s); cbn [snd List.length] in *.
    lia.
Qed.

Lemma run_then_semicolon_app (a r : str) (c : char) (t : str) :
  (c =? 59) = false ->
  run_then_semicolon (a, r ++ c :: t)
  = extend_rest (c :: t) (run_then_semicolon (a, r)).
Proof.
  intros Hc. unfold run_then_semicolon.
  destruct (truthy a); [|reflexivity].
  destruct r as [|x r]; cbn [app opt_semicolon extend_rest].
  - now rewrite Hc.
  - destruct (x =? 59); reflexivity.
Qed.

Lemma run_then_semicolon_length (a r g rest : str) :
  run_then_semicolon (a, r) = Some (g, rest) ->
  (List.length rest <= List.length r)%nat.
Proof.
  unfold run_then_semicolon. destruct (truthy a); [|discriminate].
  destruct r as [|x r]; cbn [opt_semicolon].
  - intros H; inversion H; reflexivity.
  - destruct (x =? 59); intros H; inversion H; cbn [List.length]; lia.
Qed.

Lemma prepend_extend (pre suffix : str) (m : option (str * str)) :
  prepend pre (extend_rest suffix m) = extend_rest suffix (prepend pre m).
Proof. destruct m as [[g rest]|]; reflexivity. Qed.

Lemma match_charref_app (u t : str) :
  match_charref (u ++ 38 :: t) = extend_rest (38 :: t) (match_charref u).
Proof.
  destruct u as [|c s1]; [reflexivity|].
  cbn [app match_charref].
  destruct (c =? 35).
  - rewrite span_app by reflexivity.
    destruct (span is_digit s1) as [a r]; cbn [fst snd].
    rewrite run_then_semicolon_app by reflexivity.
    destruct (run_then_semicolon (a, r)) as [[g rest]|]; [reflexivity|].
    cbn [extend_rest].
    destruct s1 as [|x s2]; [reflexivity|].
    cbn [app]. destruct (char_in x (py "xX")); [|reflexivity].
    rewrite span_app by reflexivity.
    destruct (span is_hexdigit s2) as [a' r']; cbn [fst snd].
    rewrite run_then_semicolon_app by reflexivity.
    apply prepend_extend.
  - change (c :: s1 ++ 38 :: t) with ((c :: s1) ++ 38 :: t).
    rewrite span_upto_app by reflexivity.
    destruct (span_upto 32 is_name_char (c :: s1)) as [a r]; cbn [fst snd].
    apply run_then_semicolon_app. reflexivity.
Qed.

Lemma match_charref_length (s g rest : str) :
  match_charref s = Some (g, rest) ->
  (List.length rest <= List.length s)%nat.
Proof.
  destruct s as [|c s1]; [discriminate|].
  cbn [match_charref]. destruct (c =? 35).
  - pose proof (span_rest_length is_digit s1) as Hd.
    destruct (span is_digit s1) as [a r]; cbn [snd] in Hd.
    destruct (run_then_semicolon (a, r)) as [[g1 rest1]|] eqn:E.
    + apply run_then_semicolon_length in E.
      intros H; inversion H; subst. cbn [List.length]. lia.
    + destruct s1 as [|x s2]; [discriminate|].
      destruct (char_in x (py "xX")); [|discriminate].
      pose proof (span_rest_length is_hexdigit s2) as Hh.
      destruct (span is_hexdigit s2) as [a' r']; cbn [snd] in Hh.
      destruct (run_then_semicolon (a', r')) as [[g2 rest2]|] eqn:E2;
        [|discriminate].
      apply run_then_semicolon_length in E2.
      intros H; inversion H; subst. cbn [List.length]. lia.
  - pose proof (span_upto_rest_length 32 is_name_char (c :: s1)) as Hn.
    destruct (span_upto 32 is_name_char (c :: s1)) as [a r]; cbn [snd] in Hn.
    intros H. apply run_then_semicolon_length in H. lia.
Qed.

Section UnescapeProperties.

Variable html5 : str -> option str.

Lemma charref_sub_fuel (f1 f2 : nat) (s : str) :
  (List.length s <= f1)%nat -> (List.length s <= f2)%nat ->
  charref_sub html5 f1 s = charref_sub html5 f2 s.
Proof.
  revert f2 s; induction f1 as [|f1 IH]; intros f2 s H1 H2.
  - destruct s; [|cbn [List.length] in H1; lia].
    destruct f2; reflexivity.
  - destruct s as [|c s]; [destruct f2; reflexivity|].
    destruct f2 as [|f2]; cbn [List.length] in *; [lia|].
    cbn [charref_sub].
    destruct (c =? 38).
    + destruct (match_charref s) as [[g rest]|] eqn:E.
      * apply match_charref_length in E.
        f_equal. apply IH; lia.
      * f_equal. apply IH; lia.
    + f_equal. apply IH; lia.
Qed.

Lemma charref_sub_no_ampersand (fuel : nat) (s : str) :
  char_in 38 s = false -> charref_sub html5 fuel s = s.
Proof.
  revert s; induction fuel as [|fuel IH]; intros s Hs; [reflexivity|].
  destruct s as [|c s]; [reflexivity|].
  unfold char_in in Hs. cbn [existsb] in Hs.
  apply orb_false_elim in Hs as [Hc Hs].
  cbn [charref_sub]. rewrite N.eqb_sym, Hc.
  f_equal. apply IH, Hs.
Qed.

Local Abbreviation scan := (scan html5).

Lemma unescape_scan (s : str) : unescape html5 s = scan s.
Proof.
  unfold unescape, scan. destruct (char_in 38 s) eqn:E; cbn [negb];
    [reflexivity|].
  symmetry. now apply charref_sub_no_ampersand.
Qed.

Lemma scan_match (s g rest : str) :
  match_charref s = Some (g, rest) ->
  scan (38 :: s) = replace_charref html5 g ++ scan rest.
Proof.
  intros E. unfold scan. cbn [List.length charref_sub N.eqb Pos.eqb].
  rewrite E. f_equal.
  apply match_charref_length in E. apply charref_sub_fuel; lia.
Qed.

Lemma scan_no_match (s : str) :
  match_charref s = None -> scan (38 :: s) = 38 :: scan s.
Proof.
  intros E. unfold scan. cbn [List.length charref_sub N.eqb Pos.eqb].
  now rewrite E.
Qed.

Lemma scan_other (c : char) (s : str) :
  (c =? 38) = false -> scan (c :: s) = c :: scan s.
Proof.
  intros E. unfold scan. cbn [List.length charref_sub]. now rewrite E.
Qed.

(** No match runs across an ampersand: the scan of a string that continues
    with an ampersand is the scan of the string followed by the scan of
    what continues it. *)
Lemma scan_app_ampersand (n : nat) (u t : str) :
  (List.length u <= n)%nat ->
  scan (u ++ 38 :: t) = scan u ++ scan (38 :: t).
Proof.
  revert u; induction n as [|n IH]; intros u Hn.
  - destruct u; [reflexivity | cbn [List.length] in Hn; lia].
  - destruct u as [|c u]; [reflexivity|].
    cbn [List.length] in Hn. cbn [app].
    destruct (c =? 38) eqn:Ec.
    + apply N.eqb_eq in Ec; subst c.
      pose proof (match_charref_app u t) as Happ.
      destruct (match_charref u) as [[g rest]|] eqn:E; cbn [extend_rest] in Happ.
      * rewrite (@scan_match _ _ _ Happ), (@scan_match _ _ _ E), <- app_assoc.
        f_equal. apply IH.
        apply match_charref_length in E. lia.
      * rewrite (@scan_no_match _ Happ), (@scan_no_match _ E).
        cbn [app]. f_equal. apply IH. lia.
    + rewrite !scan_other by assumption. cbn [app]. f_equal. apply IH. lia.
Qed.

Hypothesis html5_amp : html5 (py "amp;") = Some (py "&").

Lemma scan_amp (t : str) : scan (py "&amp;" ++ t) = py "&" ++ scan t.
Proof.
  change (py "&amp;" ++ t) with (38 :: py "amp;" ++ t).
  rewrite (@scan_match _ (py "amp;") t) by reflexivity.
  f_equal.
  change (replace_charref html5 (py "amp;"))
    with (match html5 (py "amp;") with
          | Some v => v
          | None => longest_name html5 (py "amp;") 3
          end).
  now rewrite html5_amp.
Qed.

(** C7.  Every passage of the result is the unescaped flattened text of a
    candidate node, in order; and unescaping turns every occurrence of
    [&amp;] in a flattened text into [&], the text before it and the text
    after it being unescaped on their own. *)
Theorem passages_unescaped :
  (forall tree,
      get_all_passages html5 tree
      = map (fun e => unescape html5 (gettext e)) (candidates tree))
  /\ (forall before after,
        unescape html5 (before ++ py "&amp;" ++ after)
        = unescape html5 before ++ py "&" ++ unescape html5 after).
Proof.
  split.
  - apply get_all_passages_eq.
  - intros before after. rewrite !unescape_scan.
    change (py "&amp;" ++ after) with (38 :: py "amp;" ++ after).
    rewrite (@scan_app_ampersand _ before (py "amp;" ++ after) (le_n _)).
    f_equal. apply scan_amp.
Qed.

End UnescapeProperties.

Lemma passages_unescaped_witness :
  get_all_passages small_html5 doc_amp
  = map (fun e => unescape small_html5 (gettext e)) (candidates doc_amp)
  /\ unescape small_html5 (py "Fish " ++ py "&amp;" ++ py " chips")
     = unescape small_html5 (py "Fish ") ++ py "&"
       ++ unescape small_html5 (py " chips").
Proof.
  destruct (passages_unescaped small_html5 eq_refl) as (Hall & Hamp).
  split; [apply Hall | apply Hamp].
Defined.


(** ** Result Writer *)

Lemma hex_digit_no_newline (n : N) : hex_digit n <> 10.
Proof. unfold hex_digit. destruct (n <? 10); lia. Qed.

Lemma escape_char_no_newline (c : char) : ~ In 10 (escape_char c).
Proof.
  unfold escape_char.
  repeat match goal with
         | |- context [if ?b then _ else _] => destruct b eqn:?
         end;
    cbn [In]; intros H;
    repeat match type of H with
           | _ \/ _ => destruct H as [H | H]
           end;
    try contradiction; try discriminate;
    try (now apply hex_digit_no_newline in H).
  match goal with
  | E : (c =? 10) = false |- _ => apply N.eqb_neq in E; congruence
  end.
Qed.

Lemma join_In (x : char) (sep : str) (parts : list str) :
  In x (join sep parts) -> In x sep \/ exists p, In p parts /\ In x p.
Proof.
  induction parts as [|p rest IH]; [contradiction|].
  rewrite join_cons. intros H. apply in_app_or in H as [H | H].
  - right. exists p. split; [now left | assumption].
  - apply in_flat_map in H as (q & Hq & H).
    apply in_app_or in H as [H | H]; [now left|].
    right. exists q. split; [now right | assumption].
Qed.

(** A JSON line holds no newline before the one that ends it. *)
Lemma json_dumps_no_newline (items : list str) : ~ In 10 (json_dumps items).
Proof.
  unfold json_dumps. intros H.
  apply in_app_or in H as [H | H]; [destruct H as [H | []]; discriminate|].
  apply in_app_or in H as [H | H]; [|destruct H as [H | []]; discriminate].
  apply join_In in H as [H | (p & Hp & H)].
  - vm_compute in H. destruct H as [H | [H | []]]; discriminate.
  - apply in_map_iff in Hp as (item & <- & _).
    unfold encode_basestring in H.
    apply in_app_or in H as [H | H]; [destruct H as [H | []]; discriminate|].
    apply in_app_or in H as [H | H]; [|destruct H as [H | []]; discriminate].
    apply in_flat_map in H as (c & _ & H).
    exact (escape_char_no_newline c H).
Qed.

(** ** Pipeline Orchestrator *)

Lemma str_eqb_sym (a b : str) : str_eqb a b = str_eqb b a.
Proof.
  destruct (str_eqb a b) eqn:E.
  - apply str_eqb_eq in E. subst. symmetry. apply str_eqb_refl.
  - symmetry. apply str_eqb_neq. apply str_eqb_neq in E. congruence.
Qed.

Lemma error_check (tree : Element) :
  existsb (str_eqb (py "error")) (map tag (iter None tree))
  = match iter (Some (py "error")) tree with [] => false | _ :: _ => true end.
Proof.
  rewrite iter_Some_filter.
  induction (iter None tree) as [|x l IH]; [reflexivity|].
  cbn [map existsb filter]. rewrite (str_eqb_sym (py "error")).
  destruct (str_eqb (tag x) (py "error")); [reflexivity | exact IH].
Qed.

Lemma error_node_found (tree x : Element) :
  In x (iter None tree) -> tag x = py "error" ->
  iter (Some (py "error")) tree <> [].
Proof.
  intros Hin Htag Hnil.
  assert (H : In x (iter (Some (py "error")) tree)).
  { rewrite iter_Some_filter. apply filter_In. split; [assumption|].
    rewrite Htag. apply str_eqb_refl. }
  rewrite Hnil in H. exact H.
Qed.

Lemma written_prefix_length (os : list LineOutcome) :
  List.length (written_prefix os)
  = match first_failure os with Some i => i | None => List.length os end.
Proof.
  induction os as [|o os IH]; [reflexivity|].
  destruct o; cbn [written_prefix first_failure List.length]; try reflexivity.
  rewrite IH. destruct (first_failure os); reflexivity.
Qed.

Lemma written_prefix_firstn (os : list LineOutcome) :
  map Written (written_prefix os)
  = firstn (List.length (written_prefix os)) os.
Proof.
  induction os as [|o os IH]; [reflexivity|].
  destruct o; cbn [written_prefix map List.length firstn]; try reflexivity.
  now rewrite IH.
Qed.

Lemma first_failure_bound (os : list LineOutcome) (i : nat) :
  first_failure os = Some i -> (i < List.length os)%nat.
Proof.
  revert i; induction os as [|o os IH]; intros i; [discriminate|].
  destruct o; cbn [first_failure List.length];
    try (intros H; inversion H; lia).
  destruct (first_failure os) as [k|]; [|discriminate].
  intros H; inversion H. specialize (IH k eq_refl). lia.
Qed.

Lemma replies_length {Net : Type}
    (requests_get : str -> Params -> Net -> Response * Net)
    (user key : str) (queries : list str) (n : Net) :
  List.length (replies requests_get user key n queries) = List.length queries.
Proof.
  revert n; induction queries as [|q qs IH]; intros n; [reflexivity|].
  cbn [replies]. destruct (requests_get _ _ n) as [r n'].
  cbn [List.length]. now rewrite IH.
Qed.

(** The responses of a provider that answers by the query alone. *)
Lemma replies_functional {Net : Type}
    (requests_get : str -> Params -> Net -> Response * Net)
    (answer : str -> Params -> Response)
    (user key : str) (queries : list str) (n : Net) :
  (forall url params m, fst (requests_get url params m) = answer url params) ->
  replies requests_get user key n queries
  = map (fun q => answer search_url (search_params user key q)) queries.
Proof.
  intros Hanswer. revert n; induction queries as [|q qs IH]; intros n;
    [reflexivity|].
  cbn [replies map]. specialize (Hanswer search_url (search_params user key q) n).
  destruct (requests_get _ _ n) as [r n']. cbn [fst] in Hanswer.
  now rewrite IH, Hanswer.
Qed.

Section RunProperties.

Variable html5 : str -> option str.
Variable Net : Type.
Variable requests_get : str -> Params -> Net -> Response * Net.
Variable fromstring : list Byte.byte -> option Element.
Variables user key : str.

Local Abbreviation run_lines :=
  (process_lines html5 requests_get fromstring user key).
Local Abbreviation outcome := (outcome_of html5 fromstring).
Local Abbreviation request_of :=
  (fun words : list str =>
     (search_url, search_params user key (query_from_wordlist words))).

(** One turn of the loop. *)
Lemma process_lines_cons (i : nat) (words : list str)
    (rest : list (nat * list str)) (w : World Net) :
  run_lines ((i, words) :: rest) w
  = let (r, n') := requests_get search_url
                     (search_params user key (query_from_wordlist words))
                     (net w) in
    let sent' := sent w ++ [request_of words] in
    match outcome r with
    | Written line =>
        run_lines rest
          {| net := n'; sent := sent';
             result_fh := result_fh w ++ [line];
             log := log w ++ progress_log i |}
    | TransportFailure code =>
        (Returned,
         {| net := n'; sent := sent'; result_fh := result_fh w;
            log := log w ++ transport_failure_log i code |})
    | ProviderError message =>
        (Returned,
         {| net := n'; sent := sent'; result_fh := result_fh w;
            log := log w ++ provider_error_log i message |})
    | Malformed =>
        (Raised,
         {| net := n'; sent := sent'; result_fh := result_fh w;
            log := log w |})
    end.
Proof.
  cbn [process_lines]. unfold bind at 1. unfold search at 1.
  unfold bind at 1. unfold http_get at 1. unfold search_params.
  destruct (requests_get _ _ (net w)) as [r n'].
  unfold outcome_of. cbn zeta.
  destruct (status_code r =? 200)%Z.
  - unfold ret at 1.
    destruct (fromstring (content r)) as [tree|]; [|reflexivity].
    rewrite error_check.
    destruct (iter (Some (py "error")) tree) as [|e es]; cbn [map].
    + unfold bind, write, progress_log.
      destruct (i mod 1000 =? 0)%nat; unfold logging_info, logging, ret;
        cbn [net sent result_fh log]; [reflexivity|].
      now rewrite app_nil_r.
    + unfold bind, logging_error, logging_info, logging, ret,
        provider_error_log.
      cbn [net sent result_fh log]. now rewrite <- app_assoc.
  - unfold ret at 1.
    unfold bind, logging_error, logging_info, logging, ret,
      transport_failure_log.
    cbn [net sent result_fh log]. now rewrite <- app_assoc.
Qed.

Lemma process_lines_spec (word_lists : list (list str)) :
  forall (i : nat) (w : World Net),
    let os := map outcome
                  (replies requests_get user key (net w)
                           (map query_from_wordlist word_lists)) in
    let run := run_lines (enumerate_from i word_lists) w in
    result_fh (snd run) = result_fh w ++ written_prefix os
    /\ sent (snd run)
       = sent w
         ++ firstn (match first_failure os with
                    | Some k => S k
                    | None => List.length word_lists
                    end) (map request_of word_lists)
    /\ loop_end i os (log w) run.
Proof.
  induction word_lists as [|words rest IH]; intros i w os run.
  - subst os run. unfold loop_end. cbn. rewrite !app_nil_r. repeat split.
    exists []. split; [constructor|]. now rewrite app_nil_r.
  - subst os run. unfold loop_end.
    cbn [enumerate_from map replies]. rewrite process_lines_cons.
    destruct (requests_get _ _ (net w)) as [r n'].
    cbn zeta. cbn [map].
    destruct (outcome r) as [line|code|message|] eqn:Er.
    + match goal with
      | |- context [run_lines _ ?w1] => specialize (IH (S i) w1)
      end.
      cbn zeta in IH. cbn [net sent result_fh log] in IH.
      destruct IH as (Hout & Hsent & progress & Hinfo & Hend).
      cbn [written_prefix first_failure].
      split; [|split].
      * rewrite Hout, <- app_assoc. reflexivity.
      * rewrite Hsent, <- app_assoc.
        destruct (first_failure _); reflexivity.
      * exists (progress_log i ++ progress). split.
        -- apply Forall_app. split; [|assumption].
           unfold progress_log. destruct (i mod 1000 =? 0)%nat;
             repeat constructor.
        -- destruct (first_failure _) as [k|]; cbn [option_map nth_error].
           ++ replace (i + S k)%nat with (S i + k)%nat by lia.
              destruct (nth_error _ k) as [[| | |]|];
                rewrite <- ?app_assoc in Hend; rewrite <- ?app_assoc;
                exact Hend.
           ++ rewrite <- app_assoc in Hend. exact Hend.
    + cbn [written_prefix first_failure snd fst result_fh sent log firstn].
      rewrite app_nil_r. repeat split.
      exists []. split; [constructor|].
      cbn [nth_error snd fst log app]. rewrite Nat.add_0_r. now split.
    + cbn [written_prefix first_failure snd fst result_fh sent log firstn].
      rewrite app_nil_r. repeat split.
      exists []. split; [constructor|].
      cbn [nth_error snd fst log app]. rewrite Nat.add_0_r. now split.
    + cbn [written_prefix first_failure snd fst result_fh sent log firstn].
      rewrite app_nil_r. repeat split.
      exists []. split; [constructor|].
      cbn [nth_error snd fst log app]. rewrite app_nil_r. now split.
Qed.

Local Abbreviation run_file :=
  (write_passages html5 requests_get fromstring).
Local Abbreviation outcomes_of :=
  (outcomes html5 requests_get fromstring user key).
Local Abbreviation responses_of := (responses requests_get user key).
Local Abbreviation halted_at :=
  (halted_at html5 requests_get fromstring user key).

(** [write_passages] around its loop. *)
Lemma write_passages_loop (taxonomy_filename : str) (tax_fh : list str)
    (output_filename : str) (w : World Net) :
  let loop := run_lines
                (enumerate_from 0 (get_lines_from_file tax_fh))
                {| net := net w; sent := sent w; result_fh := [];
                   log := log w
                          ++ header_log taxonomy_filename output_filename |} in
  let run := run_file taxonomy_filename tax_fh output_filename user key w in
  fst run = fst loop
  /\ result_fh (snd run) = result_fh (snd loop)
  /\ sent (snd run) = sent (snd loop)
  /\ log (snd run)
     = log (snd loop)
       ++ match fst loop with
          | Exhausted => [(INFO, py "Done")]
          | _ => []
          end.
Proof.
  unfold write_passages, bind, open_w, logging_info, logging.
  cbn [net sent result_fh log]. unfold header_log.
  rewrite <- app_assoc. cbn [app].
  destruct (run_lines _ _) as [[| |] w']; cbn [fst snd ret];
    unfold ret; cbn [fst snd net sent result_fh log];
    rewrite ?app_nil_r; auto.
Qed.

Lemma write_passages_spec (taxonomy_filename : str) (tax_fh : list str)
    (output_filename : str) (w : World Net) :
  let os := outcomes_of (net w) tax_fh in
  let run := run_file taxonomy_filename tax_fh output_filename user key w in
  result_fh (snd run) = written_prefix os
  /\ sent (snd run)
     = sent w
       ++ firstn (match first_failure os with
                  | Some k => S k
                  | None => List.length tax_fh
                  end) (requests_for user key tax_fh)
  /\ exists loop : Exit * World Net,
       fst loop = fst run
       /\ log (snd run)
          = log (snd loop)
            ++ match fst loop with
               | Exhausted => [(INFO, py "Done")]
               | _ => []
               end
       /\ loop_end 0 os
            (log w ++ header_log taxonomy_filename output_filename) loop.
Proof.
  intros os run.
  destruct (write_passages_loop taxonomy_filename tax_fh output_filename w)
    as (Hexit & Hout & Hsent & Hlog).
  match type of Hexit with
  | _ = fst (run_lines _ ?w0) =>
      destruct (process_lines_spec (get_lines_from_file tax_fh) 0 w0)
        as (Lout & Lsent & Lend)
  end.
  cbn [net sent result_fh log app] in Lout, Lsent, Lend.
  fold run in Hexit, Hout, Hsent, Hlog.
  split; [|split].
  - rewrite Hout, Lout. reflexivity.
  - rewrite Hsent, Lsent. unfold get_lines_from_file at 2.
    rewrite length_map. reflexivity.
  - eexists. split; [symmetry; exact Hexit|]. split; [exact Hlog|].
    exact Lend.
Qed.

Lemma outcomes_length (n : Net) (tax_fh : list str) :
  List.length (outcomes_of n tax_fh) = List.length tax_fh.
Proof.
  unfold outcomes, responses, get_lines_from_file.
  now rewrite length_map, replies_length, !length_map.
Qed.

(** A line is written exactly for a response with status 200 whose body
    parses to a tree without an [error] node; the line is the JSON array of
    the passages of that tree and a newline. *)
Lemma outcome_of_written (r : Response) (line : str) :
  outcome r = Written line ->
  exists tree,
    status_code r = 200%Z
    /\ fromstring (content r) = Some tree
    /\ iter (Some (py "error")) tree = []
    /\ line = json_dumps (get_all_passages html5 tree) ++ py_newline.
Proof.
  unfold outcome_of.
  destruct (status_code r =? 200)%Z eqn:Ecode; [|discriminate].
  destruct (fromstring (content r)) as [tree|]; [|discriminate].
  destruct (iter (Some (py "error")) tree) eqn:E; [|discriminate].
  intros H; inversion H. exists tree.
  apply Z.eqb_eq in Ecode. auto.
Qed.

Lemma written_prefix_lines (rs : list Response) :
  Forall (fun line => exists body, line = body ++ py_newline /\ ~ In 10 body)
         (written_prefix (map outcome rs)).
Proof.
  induction rs as [|r rs IH]; [constructor|].
  cbn [map written_prefix].
  destruct (outcome r) as [line| | |] eqn:E; try constructor; [|exact IH].
  apply outcome_of_written in E as (tree & _ & _ & _ & ->).
  eexists. split; [reflexivity | apply json_dumps_no_newline].
Qed.

(** C1.  The lines of the output file are the LineResults of the input
    lines before the first line that fails, in order: their number is the
    number of input lines when no line fails and the index of the first
    failing line otherwise, never more than the number of input lines, and
    output line [j] is the LineResult of input line [j].  Each of them is
    one line of text: it ends in a newline and holds no other. *)
Theorem output_lines_match_input (taxonomy_filename : str)
    (tax_fh : list str) (output_filename : str) (w : World Net) :
  let os := outcomes_of (net w) tax_fh in
  let out :=
    result_fh
      (snd (run_file taxonomy_filename tax_fh output_filename user key w)) in
  out = written_prefix os
  /\ List.length out
     = match first_failure os with
       | Some i => i
       | None => List.length tax_fh
       end
  /\ (List.length out <= List.length tax_fh)%nat
  /\ map Written out = firstn (List.length out) os
  /\ Forall (fun line => exists body,
                 line = body ++ py_newline /\ ~ In 10 body) out.
Proof.
  intros os out.
  destruct (write_passages_spec taxonomy_filename tax_fh output_filename w)
    as (Hout & _).
  fold os out in Hout.
  assert (Hlen : List.length out
                 = match first_failure os with
                   | Some i => i
                   | None => List.length tax_fh
                   end).
  { rewrite Hout, written_prefix_length.
    unfold os. now rewrite outcomes_length. }
  repeat split.
  - exact Hout.
  - exact Hlen.
  - rewrite Hlen. destruct (first_failure os) as [i|] eqn:E; [|lia].
    apply first_failure_bound in E. unfold os in E.
    rewrite outcomes_length in E. lia.
  - rewrite Hout. apply written_prefix_firstn.
  - rewrite Hout. apply written_prefix_lines.
Qed.

Lemma halted_at_intro (taxonomy_filename : str) (tax_fh : list str)
    (output_filename : str) (w : World Net) (i : nat) (o : LineOutcome)
    (last_records : list (Level * str)) :
  first_failure (outcomes_of (net w) tax_fh) = Some i ->
  nth_error (outcomes_of (net w) tax_fh) i = Some o ->
  match o with
  | TransportFailure code => last_records = transport_failure_log i code
  | ProviderError message => last_records = provider_error_log i message
  | _ => False
  end ->
  halted_at taxonomy_filename tax_fh output_filename w i last_records.
Proof.
  intros Hfirst Hnth Hlast. unfold halted_at.
  destruct (write_passages_spec taxonomy_filename tax_fh output_filename w)
    as (Hout & Hsent & loop & Hexit & Hlog & progress & Hinfo & Hend).
  cbn zeta in *. rewrite Hfirst in *. rewrite Hnth in Hend.
  cbn [Nat.add] in Hend.
  assert (Hlen : List.length
                   (result_fh
                      (snd (run_file taxonomy_filename tax_fh
                              output_filename user key w))) = i).
  { now rewrite Hout, written_prefix_length, Hfirst. }
  assert (Hpre : map Written
                   (result_fh
                      (snd (run_file taxonomy_filename tax_fh
                              output_filename user key w)))
                 = firstn i (outcomes_of (net w) tax_fh)).
  { rewrite Hout in Hlen |- *. rewrite <- Hlen.
    apply written_prefix_firstn. }
  assert (Hrun : fst loop = Returned
                 /\ log (snd loop)
                    = (log w ++ header_log taxonomy_filename output_filename)
                        ++ progress ++ last_records).
  { destruct o; try contradiction; subst last_records; exact Hend. }
  destruct Hrun as (Hret & Hlogs).
  rewrite Hret in *.
  repeat split; auto.
  exists progress. split; [assumption|].
  rewrite Hlog, Hlogs, app_nil_r, <- app_assoc. reflexivity.
Qed.

(** C4.  When the line [i] is the first to fail and the search client
    returns a status code for it (the response has a status other than
    200), the run returns early, its log ends with the failure record that
    names line [i + 1] and the code, followed by [Exiting]; no request is
    sent for a later line; the output file holds the [i] lines of the
    earlier input lines and nothing for line [i] or later. *)
Theorem transport_failure_halts (taxonomy_filename : str)
    (tax_fh : list str) (output_filename : str) (w : World Net)
    (i : nat) (r : Response) :
  first_failure (outcomes_of (net w) tax_fh) = Some i ->
  nth_error (responses_of (net w) tax_fh) i = Some r ->
  status_code r <> 200%Z ->
  halted_at taxonomy_filename tax_fh output_filename w i
            (transport_failure_log i (status_code r)).
Proof.
  intros Hfirst Hr Hcode.
  apply halted_at_intro with (o := TransportFailure (status_code r));
    [assumption | | reflexivity].
  unfold outcomes. rewrite nth_error_map. fold responses_of. rewrite Hr.
  cbn [option_map]. unfold outcome_of.
  apply Z.eqb_neq in Hcode. now rewrite Hcode.
Qed.

(** C5.  When the line [i] is the first to fail and its response parses to
    a tree that holds a node tagged [error] anywhere, the run returns early
    and its log ends with the record that names line [i + 1] and the text of
    the first such node, followed by [Exiting]; the output file holds the
    [i] lines of the earlier input lines: 4 lines for an error at the
    fifth line. *)
Theorem provider_error_halts (taxonomy_filename : str)
    (tax_fh : list str) (output_filename : str) (w : World Net)
    (i : nat) (r : Response) (tree x : Element) :
  first_failure (outcomes_of (net w) tax_fh) = Some i ->
  nth_error (responses_of (net w) tax_fh) i = Some r ->
  status_code r = 200%Z ->
  fromstring (content r) = Some tree ->
  In x (iter None tree) -> tag x = py "error" ->
  exists e others,
    iter (Some (py "error")) tree = e :: others
    /\ halted_at taxonomy_filename tax_fh output_filename w i
                 (provider_error_log i (text e)).
Proof.
  intros Hfirst Hr Hcode Htree Hx Htag.
  pose proof (error_node_found _ _ Hx Htag) as Hne.
  destruct (iter (Some (py "error")) tree) as [|e others] eqn:E;
    [congruence|].
  exists e, others. split; [reflexivity|].
  apply halted_at_intro with (o := ProviderError (text e));
    [assumption | | reflexivity].
  unfold outcomes. rewrite nth_error_map. fold responses_of. rewrite Hr.
  cbn [option_map]. unfold outcome_of.
  rewrite Hcode, Htree, E. reflexivity.
Qed.

End RunProperties.

(** C9.  Two runs on the same input file against providers that answer
    every request by the same function of the request, whatever state they
    keep and whatever state the runs start from, leave the same output
    file. *)
Theorem runs_are_deterministic
    (html5 : str -> option str)
    (fromstring : list Byte.byte -> option Element)
    (Net1 Net2 : Type)
    (get1 : str -> Params -> Net1 -> Response * Net1)
    (get2 : str -> Params -> Net2 -> Response * Net2)
    (answer : str -> Params -> Response)
    (taxonomy_filename : str) (tax_fh : list str)
    (output_filename user key : str)
    (w1 : World Net1) (w2 : World Net2) :
  (forall url params n, fst (get1 url params n) = answer url params) ->
  (forall url params n, fst (get2 url params n) = answer url params) ->
  result_fh (snd (write_passages html5 get1 fromstring taxonomy_filename
                    tax_fh output_filename user key w1))
  = result_fh (snd (write_passages html5 get2 fromstring taxonomy_filename
                      tax_fh output_filename user key w2)).
Proof.
  intros H1 H2.
  destruct (write_passages_spec html5 get1 fromstring user key
              taxonomy_filename tax_fh output_filename w1) as (-> & _).
  destruct (write_passages_spec html5 get2 fromstring user key
              taxonomy_filename tax_fh output_filename w2) as (-> & _).
  unfold outcomes, responses.
  now rewrite (replies_functional get1 answer user key _ (net w1) H1),
              (replies_functional get2 answer user key _ (net w2) H2).
Qed.

Lemma transport_failure_halts_witness :
  halted_at small_html5 mock_get mock_fromstring (py "user") (py "key")
    (py "taxonomy.txt") file_hello_foo (py "out.jsonl") (initial_world tt)
    1 (transport_failure_log 1 403).
Proof.
  apply (transport_failure_halts small_html5 mock_get mock_fromstring
           (py "user") (py "key") (py "taxonomy.txt") file_hello_foo
           (py "out.jsonl") (initial_world tt) (i := 1%nat)
           (r := response_403)).
  - reflexivity.
  - reflexivity.
  - discriminate.
Defined.

Lemma provider_error_halts_witness :
  exists e others,
    iter (Some (py "error")) tree_quota = e :: others
    /\ halted_at small_html5 mock_get mock_fromstring (py "user") (py "key")
         (py "taxonomy.txt") file_quota (py "out.jsonl") (initial_world tt)
         4 (provider_error_log 4 (text e)).
Proof.
  apply (provider_error_halts small_html5 mock_get mock_fromstring
           (py "user") (py "key") (py "taxonomy.txt") file_quota
           (py "out.jsonl") (initial_world tt) (i := 4%nat)
           (r := response_quota) (tree := tree_quota)
           (leaf "error" "quota exceeded")).
  - reflexivity.
  - reflexivity.
  - reflexivity.
  - reflexivity.
  - right. left. reflexivity.
  - reflexivity.
Defined.

Lemma runs_are_deterministic_witness :
  result_fh (snd (write_passages small_html5 mock_get mock_fromstring
                    (py "taxonomy.txt") file_quota (py "out.jsonl")
                    (py "user") (py "key") (initial_world tt)))
  = result_fh (snd (write_passages small_html5 counting_get mock_fromstring
                      (py "taxonomy.txt") file_quota (py "out.jsonl")
                      (py "user") (py "key") (initial_world 7%nat))).
Proof.
  apply (runs_are_deterministic small_html5 mock_fromstring
           mock_get counting_get mock_answer).
  - reflexivity.
  - reflexivity.
Defined.

(** ** The scenarios of the specification *)

(** Two input lines, the second answered with status 403: one output line,
    the failure logged for line 2, and the two requests sent. *)
Example scenario_transport_failure :
  let run := write_passages small_html5 mock_get mock_fromstring
               (py "taxonomy.txt") file_hello_foo (py "out.jsonl")
               (py "user") (py "key") (initial_world tt) in
  fst run = Returned
  /\ result_fh (snd run) = [[91; 34] ++ py "Hello World" ++ [34; 93; 10]]
  /\ log (snd run)
     = header_log (py "taxonomy.txt") (py "out.jsonl")
       ++ [(INFO, py "Processed 0 lines");
           (ERROR, py "Request for line 2 failed, status code 403");
           (INFO, py "Exiting")]
  /\ map (fun request => param_text (snd request)) (sent (snd run))
     = [py "+hello +world"; py "+foo"].
Proof. vm_compute. repeat split. Qed.

(** The fifth of six input lines is answered with an error page: four
    output lines, the message logged for line 5, no request for line 6. *)
Example scenario_provider_error :
  let run := write_passages small_html5 mock_get mock_fromstring
               (py "taxonomy.txt") file_quota (py "out.jsonl")
               (py "user") (py "key") (initial_world tt) in
  fst run = Returned
  /\ List.length (result_fh (snd run)) = 4%nat
  /\ log (snd run)
     = header_log (py "taxonomy.txt") (py "out.jsonl")
       ++ [(INFO, py "Processed 0 lines");
           (ERROR, py "An error occurred at line 5: quota exceeded");
           (INFO, py "Exiting")]
  /\ List.length (sent (snd run)) = 5%nat.
Proof. vm_compute. repeat split. Qed.

(** A run that meets no failure writes one line per input line and logs
    [Done]. *)
Example scenario_completed :
  let run := write_passages small_html5 mock_get mock_fromstring
               (py "taxonomy.txt") (firstn 4 file_quota) (py "out.jsonl")
               (py "user") (py "key") (initial_world tt) in
  fst run = Exhausted
  /\ List.length (result_fh (snd run)) = 4%nat
  /\ last (log (snd run)) (ERROR, []) = (INFO, py "Done").
Proof. vm_compute. repeat split. Qed.

(** The passages of documents marked [ru], unmarked, and marked [en]. *)
Example scenario_language_filter :
  get_all_passages small_html5
    (Elem (py "yandexsearch") None None
          [doc_ru; doc_nolang; doc_nested; doc_amp])
  = [py "Tom and Jerry"; py "and Jerry"; py "Fish & chips"].
Proof. reflexivity. Qed.

(** * Further properties of the code *)

(** ** Line Reader: whitespace and tokens *)

Lemma lstrip_all_space (s : str) :
  forallb isspace s = true -> lstrip s = [].
Proof.
  induction s as [|c s IH]; [reflexivity|].
  cbn [forallb lstrip]. intros H. apply andb_prop in H as [Hc Hs].
  rewrite Hc. auto.
Qed.

Lemma lstrip_nil_all_space (s : str) :
  lstrip s = [] -> forallb isspace s = true.
Proof.
  induction s as [|c s IH]; [reflexivity|].
  cbn [forallb lstrip]. destruct (isspace c); [auto | discriminate].
Qed.

Lemma lstrip_head (s : str) (c : char) (t : str) :
  lstrip s = c :: t -> isspace c = false.
Proof.
  induction s as [|x s IH]; [discriminate|].
  cbn [lstrip]. destruct (isspace x) eqn:E; [exact IH|].
  intros H. inversion H. subst. exact E.
Qed.

Lemma lstrip_app (s t : str) :
  lstrip (s ++ t)
  = match lstrip s with [] => lstrip t | _ :: _ => lstrip s ++ t end.
Proof.
  induction s as [|x s IH]; cbn [app lstrip].
  - destruct (lstrip t); reflexivity.
  - destruct (isspace x); [exact IH | reflexivity].
Qed.

Lemma forallb_rev {A : Type} (p : A -> bool) (l : list A) :
  forallb p (rev l) = forallb p l.
Proof.
  induction l as [|x l IH]; [reflexivity|].
  cbn [rev forallb]. rewrite forallb_app, IH. cbn [forallb].
  rewrite andb_true_r. apply andb_comm.
Qed.

Lemma rstrip_app_space (s post : str) :
  forallb isspace post = true -> rstrip (s ++ post) = rstrip s.
Proof.
  intros H. unfold rstrip. rewrite rev_app_distr, lstrip_app.
  rewrite lstrip_all_space by now rewrite forallb_rev.
  reflexivity.
Qed.

Lemma strip_surrounded (pre s post : str) :
  forallb isspace pre = true -> forallb isspace post = true ->
  strip (pre ++ s ++ post) = strip s.
Proof.
  intros Hpre Hpost. unfold strip.
  rewrite lstrip_app, (lstrip_all_space _ Hpre), lstrip_app.
  destruct (lstrip s) as [|c t] eqn:E.
  - now rewrite (lstrip_all_space _ Hpost).
  - apply rstrip_app_space, Hpost.
Qed.

Lemma strip_nil_iff (s : str) :
  strip s = [] <-> forallb isspace s = true.
Proof.
  unfold strip, rstrip. split.
  - intros H.
    assert (Hrev : lstrip (rev (lstrip s)) = []).
    { rewrite <- (rev_involutive (lstrip (rev (lstrip s)))), H.
      reflexivity. }
    apply lstrip_nil_all_space in Hrev. rewrite forallb_rev in Hrev.
    apply lstrip_nil_all_space.
    destruct (lstrip s) as [|c t] eqn:E; [reflexivity|].
    apply lstrip_head in E. cbn [forallb] in Hrev.
    rewrite E in Hrev. discriminate.
  - intros H. now rewrite (lstrip_all_space _ H).
Qed.

Lemma strip_head (s : str) (c : char) (t : str) :
  strip s = c :: t -> isspace c = false.
Proof.
  unfold strip, rstrip. intros H.
  destruct (lstrip s) as [|x u] eqn:E; [discriminate|].
  pose proof (lstrip_head _ E) as Hx.
  (* the stripped string is a prefix of [x :: u] that is not empty *)
  assert (Hpre : forall v w, lstrip v = w ->
                             exists z, v = z ++ w).
  { induction v as [|y v IH]; intros w Hw.
    - exists []. now subst.
    - cbn [lstrip] in Hw. destruct (isspace y).
      + destruct (IH _ Hw) as (z & ->). now exists (y :: z).
      + exists []. now subst. }
  destruct (Hpre (rev (x :: u)) _ eq_refl) as (z & Hz).
  apply (f_equal (@rev N)) in Hz.
  rewrite rev_involutive, rev_app_distr, H in Hz.
  cbn [app] in Hz. inversion Hz. now subst.
Qed.

Lemma is_space_or_tab_isspace (c : char) :
  is_space_or_tab c = true -> isspace c = true.
Proof.
  unfold is_space_or_tab. intros H. apply orb_prop in H as [H | H];
    apply N.eqb_eq in H; subst; reflexivity.
Qed.

Lemma maximal_runs_nil (s : str) :
  maximal_runs s = [] -> forallb is_space_or_tab s = true.
Proof.
  induction s as [|c s IH]; [reflexivity|].
  cbn [maximal_runs forallb].
  destruct (is_space_or_tab c); [exact IH|].
  destruct s as [|d s]; [discriminate|].
  destruct (is_space_or_tab d); [discriminate|].
  destruct (maximal_runs (d :: s)); discriminate.
Qed.

(** The word group of a line is empty exactly when the line consists of
    whitespace only (the empty line included); the query built from it is
    then the empty string and in no other case. *)
Theorem blank_line_iff (line : str) :
  (words_of_line line = [] <-> forallb isspace line = true)
  /\ (query_from_wordlist (words_of_line line) = []
      <-> forallb isspace line = true).
Proof.
  assert (Hwords : words_of_line line = [] <-> forallb isspace line = true).
  { unfold words_of_line. rewrite filter_re_split, <- strip_nil_iff. split.
    - intros H. destruct (strip line) as [|c t] eqn:E; [reflexivity|].
      apply strip_head in E. apply maximal_runs_nil in H.
      cbn [forallb] in H. apply andb_prop in H as [H _].
      apply is_space_or_tab_isspace in H. congruence.
    - intros ->. reflexivity. }
  split; [exact Hwords|].
  rewrite <- Hwords. split.
  - destruct (words_of_line line) as [|w ws]; [reflexivity|].
    unfold query_from_wordlist. cbn [map]. rewrite join_cons.
    discriminate.
  - intros ->. reflexivity.
Qed.

(** Whitespace of any kind around a line does not change its word group:
    in particular a last line without its newline reads like the same line
    with it. *)
Theorem surrounding_whitespace_ignored (pre line post : str) :
  forallb isspace pre = true -> forallb isspace post = true ->
  words_of_line (pre ++ line ++ post) = words_of_line line.
Proof.
  intros Hpre Hpost. unfold words_of_line.
  now rewrite strip_surrounded.
Qed.

Lemma surrounding_whitespace_ignored_witness :
  words_of_line ([160; 9] ++ py "cat dog" ++ [13; 10]) = words_of_line (py "cat dog").
Proof.
  apply surrounding_whitespace_ignored; reflexivity.
Defined.

Lemma maximal_runs_concat (s : str) :
  concat (maximal_runs s) = filter (fun c => negb (is_space_or_tab c)) s.
Proof.
  induction s as [|c s IH]; [reflexivity|].
  cbn [maximal_runs filter].
  destruct (is_space_or_tab c) eqn:Hc; cbn [negb]; [exact IH|].
  destruct s as [|d s]; [reflexivity|].
  rewrite <- IH.
  destruct (is_space_or_tab d) eqn:Hd; [reflexivity|].
  destruct (maximal_runs (d :: s)) as [|w ws]; reflexivity.
Qed.

(** The tokens of a line, put end to end, are the characters of the
    stripped line other than spaces and tabs, in order: the Line Reader
    drops separators and surrounding whitespace and nothing else. *)
Theorem words_keep_all_characters (line : str) :
  concat (words_of_line line)
  = filter (fun c => negb (is_space_or_tab c)) (strip line).
Proof.
  unfold words_of_line. rewrite filter_re_split. apply maximal_runs_concat.
Qed.

(** ** Query Builder: the query determines the word group *)

Lemma maximal_runs_token (w rest : str) :
  clean_token w ->
  maximal_runs (w ++ 32 :: rest) = w :: maximal_runs rest.
Proof.
  intros [Hne Hw]. induction w as [|c w IH]; [congruence|].
  cbn [forallb] in Hw. apply andb_prop in Hw as [Hc Hw].
  apply negb_true_iff in Hc.
  cbn [app maximal_runs]. rewrite Hc.
  destruct w as [|d w].
  - reflexivity.
  - cbn [app]. cbn [forallb] in Hw.
    pose proof Hw as Hw'. apply andb_prop in Hw' as [Hd _].
    apply negb_true_iff in Hd. rewrite Hd.
    change (d :: w ++ 32 :: rest) with ((d :: w) ++ 32 :: rest).
    rewrite IH; [reflexivity | discriminate | exact Hw].
Qed.

Lemma maximal_runs_last_token (w : str) :
  clean_token w -> maximal_runs w = [w].
Proof.
  intros [Hne Hw]. induction w as [|c w IH]; [congruence|].
  cbn [forallb] in Hw. apply andb_prop in Hw as [Hc Hw].
  apply negb_true_iff in Hc.
  cbn [maximal_runs]. rewrite Hc.
  destruct w as [|d w]; [reflexivity|].
  cbn [forallb] in Hw. pose proof Hw as Hw'.
  apply andb_prop in Hw' as [Hd _]. apply negb_true_iff in Hd. rewrite Hd.
  rewrite IH; [reflexivity | discriminate | exact Hw].
Qed.

Lemma query_round_trip (ws : list str) :
  Forall clean_token ws ->
  maximal_runs (query_from_wordlist ws) = map (fun w => 43 :: w) ws.
Proof.
  unfold query_from_wordlist.
  induction ws as [|w ws IH]; intros Hall; [reflexivity|].
  inversion Hall as [|? ? Hw Hws]; subst.
  assert (Hplus : clean_token (py "+" ++ w)).
  { destruct Hw as [_ Hw]. split; [discriminate|].
    cbn [py map list_ascii_of_string app forallb]. exact Hw. }
  destruct ws as [|v ws].
  - cbn [map join]. now rewrite maximal_runs_last_token.
  - change (join (py " ") (map (fun word => py "+" ++ word) (w :: v :: ws)))
      with ((py "+" ++ w)
              ++ 32 :: join (py " ") (map (fun word => py "+" ++ word) (v :: ws))).
    rewrite maximal_runs_token by assumption.
    rewrite IH by assumption. reflexivity.
Qed.

(** Two lines that give the same query have the same word group: the query
    keeps the tokens apart, because no token of the Line Reader is empty or
    holds a space. *)
Theorem query_determines_words (line1 line2 : str) :
  query_from_wordlist (words_of_line line1)
  = query_from_wordlist (words_of_line line2) ->
  words_of_line line1 = words_of_line line2.
Proof.
  intros H. apply (f_equal maximal_runs) in H.
  assert (Hclean : forall line, Forall clean_token (words_of_line line)).
  { intros line. unfold words_of_line. rewrite filter_re_split.
    apply maximal_runs_tokens. }
  rewrite !query_round_trip in H by apply Hclean.
  revert H. generalize (words_of_line line1) (words_of_line line2).
  induction l as [|a l IH]; intros [|b l'] H; try discriminate;
    [reflexivity|].
  cbn [map] in H. inversion H. f_equal. now apply IH.
Qed.

Lemma query_determines_words_witness :
  words_of_line (py "cat dog" ++ py_newline)
  = words_of_line ([9] ++ py "cat  dog").
Proof.
  apply query_determines_words. reflexivity.
Defined.

(** ** Pipeline Orchestrator: exit, log, requests *)

Section RunExtras.

Variable html5 : str -> option str.
Variable Net : Type.
Variable requests_get : str -> Params -> Net -> Response * Net.
Variable fromstring : list Byte.byte -> option Element.
Variables user key : str.

Local Abbreviation run_lines :=
  (process_lines html5 requests_get fromstring user key).
Local Abbreviation outcome := (outcome_of html5 fromstring).
Local Abbreviation run_file :=
  (write_passages html5 requests_get fromstring).
Local Abbreviation outcomes_of :=
  (outcomes html5 requests_get fromstring user key).
Local Abbreviation responses_of := (responses requests_get user key).
Local Abbreviation state_after := (net_after requests_get user key).

Lemma first_failure_nth (os : list LineOutcome) (k : nat) :
  first_failure os = Some k ->
  exists o, nth_error os k = Some o /\ nth k os Malformed = o
            /\ is_written o = false.
Proof.
  revert k; induction os as [|o os IH]; intros k; [discriminate|].
  destruct o; cbn [first_failure];
    try (intros H; inversion H; eexists; repeat split; reflexivity).
  destruct (first_failure os) as [j|]; [|discriminate].
  intros H; inversion H. destruct (IH j eq_refl) as (o & Ho & Hn & Hw).
  exists o. cbn [nth_error nth]. auto.
Qed.

(** The loop in closed form: exit, log and state of the endpoint. *)
Lemma process_lines_exact (word_lists : list (list str)) :
  forall (i : nat) (w : World Net),
    let queries := map query_from_wordlist word_lists in
    let os := map outcome (replies requests_get user key (net w) queries) in
    let run := run_lines (enumerate_from i word_lists) w in
    fst run = match first_failure os with
              | None => Exhausted
              | Some k => match nth k os Malformed with
                          | Malformed => Raised
                          | _ => Returned
                          end
              end
    /\ log (snd run)
       = log w
         ++ flat_map progress_log (seq i (List.length (written_prefix os)))
         ++ match first_failure os with
            | None => []
            | Some k => failure_log (i + k) (nth k os Malformed)
            end
    /\ net (snd run) = state_after (net w) (firstn (requests_made os) queries).
Proof.
  induction word_lists as [|words rest IH]; intros i w queries os run.
  - subst queries os run. cbn. now rewrite app_nil_r.
  - subst queries os run.
    cbn [enumerate_from map replies]. rewrite process_lines_cons.
    unfold requests_made. cbn [map net_after].
    destruct (requests_get _ _ (net w)) as [r n'] eqn:Eget.
    cbn zeta. cbn [map].
    destruct (outcome r) as [line|code|message|] eqn:Er.
    + match goal with
      | |- context [run_lines _ ?w1] => specialize (IH (S i) w1)
      end.
      cbn zeta in IH. cbn [net sent result_fh log] in IH.
      destruct IH as (Hexit & Hlog & Hnet).
      cbn [written_prefix first_failure List.length seq flat_map].
      unfold requests_made in Hnet.
      destruct (first_failure _) as [k|] eqn:Ef; cbn [option_map nth].
      * cbn [firstn net_after]. rewrite Eget. cbn [snd].
        repeat split; [exact Hexit | | exact Hnet].
        rewrite Hlog, <- !app_assoc.
        replace (i + S k)%nat with (S i + k)%nat by lia. reflexivity.
      * cbn [List.length firstn net_after]. rewrite Eget. cbn [snd].
        repeat split; [exact Hexit | | exact Hnet].
        rewrite Hlog, <- !app_assoc. reflexivity.
    + cbn [first_failure nth written_prefix List.length seq flat_map
             firstn net_after fst snd log net failure_log app].
      rewrite Eget, Nat.add_0_r. auto.
    + cbn [first_failure nth written_prefix List.length seq flat_map
             firstn net_after fst snd log net failure_log app].
      rewrite Eget, Nat.add_0_r. auto.
    + cbn [first_failure nth written_prefix List.length seq flat_map
             firstn net_after fst snd log net failure_log app].
      rewrite Eget, app_nil_r. auto.
Qed.

Lemma write_passages_net (taxonomy_filename : str) (tax_fh : list str)
    (output_filename : str) (w : World Net) :
  net (snd (run_file taxonomy_filename tax_fh output_filename user key w))
  = net (snd (run_lines
                (enumerate_from 0 (get_lines_from_file tax_fh))
                {| net := net w; sent := sent w; result_fh := [];
                   log := log w
                          ++ header_log taxonomy_filename output_filename |})).
Proof.
  unfold write_passages, bind, open_w, logging_info, logging.
  cbn [net sent result_fh log]. unfold header_log.
  rewrite <- app_assoc. cbn [app].
  destruct (run_lines _ _) as [[| |] w']; reflexivity.
Qed.

Lemma write_passages_exact (taxonomy_filename : str) (tax_fh : list str)
    (output_filename : str) (w : World Net) :
  let os := outcomes_of (net w) tax_fh in
  let run := run_file taxonomy_filename tax_fh output_filename user key w in
  fst run = match first_failure os with
            | None => Exhausted
            | Some k => match nth k os Malformed with
                        | Malformed => Raised
                        | _ => Returned
                        end
            end
  /\ log (snd run)
     = log w ++ header_log taxonomy_filename output_filename
       ++ flat_map progress_log (seq 0 (List.length (result_fh (snd run))))
       ++ match first_failure os with
          | None => [(INFO, py "Done")]
          | Some k => failure_log k (nth k os Malformed)
          end
  /\ net (snd run)
     = state_after (net w)
         (firstn (requests_made os)
                 (map query_from_wordlist (get_lines_from_file tax_fh))).
Proof.
  intros os run.
  destruct (write_passages_loop html5 requests_get fromstring user key
              taxonomy_filename tax_fh output_filename w)
    as (Hexit & Hout & _ & Hlog).
  pose proof (write_passages_net taxonomy_filename tax_fh output_filename w)
    as Hnet.
  destruct (write_passages_spec html5 requests_get fromstring user key
              taxonomy_filename tax_fh output_filename w) as (Hwritten & _).
  match type of Hexit with
  | _ = fst (run_lines _ ?w0) =>
      destruct (process_lines_exact (get_lines_from_file tax_fh) 0 w0)
        as (Lexit & Llog & Lnet)
  end.
  cbn [net sent result_fh log Nat.add] in Lexit, Llog, Lnet.
  fold run in Hexit, Hout, Hlog, Hnet, Hwritten.
  change (map outcome
            (replies requests_get user key (net w)
               (map query_from_wordlist (get_lines_from_file tax_fh))))
    with os in Lexit, Llog, Lnet.
  change (outcomes_of (net w) tax_fh) with os in Hwritten.
  rewrite Hwritten.
  split; [|split].
  - rewrite Hexit. exact Lexit.
  - rewrite Hlog, Llog, Lexit, <- !app_assoc. do 2 f_equal.
    destruct (first_failure os) as [k|]; [|reflexivity].
    f_equal. destruct (nth k os Malformed); now rewrite app_nil_r.
  - rewrite Hnet. exact Lnet.
Qed.

(** How a run in which every request is answered leaves the loop: through
    its end exactly when no line fails; through [return] exactly when the
    first line that fails has a status other than 200 or a tree with an
    [error] node.  (A first failing line of another kind leaves it through
    an exception.) *)
Theorem run_exit_status (taxonomy_filename : str) (tax_fh : list str)
    (output_filename : str) (w : World Net) :
  let os := outcomes_of (net w) tax_fh in
  let run := run_file taxonomy_filename tax_fh output_filename user key w in
  (fst run = Exhausted <-> first_failure os = None)
  /\ (fst run = Returned
      <-> exists i, first_failure os = Some i
                    /\ ((exists code,
                            nth_error os i = Some (TransportFailure code))
                        \/ (exists message,
                               nth_error os i
                               = Some (ProviderError message)))).
Proof.
  intros os run.
  destruct (write_passages_exact taxonomy_filename tax_fh output_filename w)
    as (Hexit & _). fold os run in Hexit.
  destruct (first_failure os) as [k|] eqn:Ef.
  - destruct (first_failure_nth _ Ef) as (o & Hnth & Hn & Hw).
    rewrite Hn in Hexit. split.
    + split; [|discriminate].
      rewrite Hexit. destruct o; discriminate.
    + split.
      * intros Hret. exists k. split; [reflexivity|]. rewrite Hnth.
        rewrite Hexit in Hret.
        destruct o; try discriminate; [left | right]; eauto.
      * intros (i & Hi & Hcase). inversion Hi; subst i.
        rewrite Hnth in Hcase. rewrite Hexit.
        destruct Hcase as [(code & H) | (message & H)];
          inversion H; reflexivity.
  - split.
    + split; auto.
    + split; [rewrite Hexit; discriminate|].
      intros (i & Hi & _). discriminate.
Qed.

(** The whole log of a run: the two opening records, a progress record for
    every written line whose index is a multiple of 1000, then [Done] when
    no line fails, the error record and [Exiting] when a line fails with a
    status code or an error node, and nothing more when a body does not
    parse. *)
Theorem run_log_exact (taxonomy_filename : str) (tax_fh : list str)
    (output_filename : str) (w : World Net) :
  let os := outcomes_of (net w) tax_fh in
  let run := run_file taxonomy_filename tax_fh output_filename user key w in
  log (snd run)
  = log w ++ header_log taxonomy_filename output_filename
    ++ flat_map progress_log (seq 0 (List.length (result_fh (snd run))))
    ++ match first_failure os with
       | None => [(INFO, py "Done")]
       | Some k => failure_log k (nth k os Malformed)
       end.
Proof. apply write_passages_exact. Qed.

Lemma requests_follow_lines_aux (taxonomy_filename : str) (tax_fh : list str)
    (output_filename : str) (w : World Net) :
  let os := outcomes_of (net w) tax_fh in
  let run := run_file taxonomy_filename tax_fh output_filename user key w in
  sent (snd run)
  = sent w
    ++ map (fun line =>
              (search_url,
               {| param_l10n := py "en"; param_user := user;
                  param_key := key;
                  param_text := query_from_wordlist (words_of_line line) |}))
           (firstn (requests_made os) tax_fh)
  /\ requests_made os
     = (List.length (result_fh (snd run))
        + match first_failure os with None => 0 | Some _ => 1 end)%nat
  /\ (requests_made os <= List.length tax_fh)%nat.
Proof.
  intros os run.
  destruct (write_passages_spec html5 requests_get fromstring user key
              taxonomy_filename tax_fh output_filename w)
    as (Hout & Hsent & _).
  fold os run in Hout, Hsent.
  assert (Hlen : List.length os = List.length tax_fh).
  { unfold os, outcomes, responses, get_lines_from_file.
    now rewrite length_map, replies_length, !length_map. }
  split; [|split].
  - rewrite Hsent. f_equal. unfold requests_made, requests_for,
      get_lines_from_file. rewrite Hlen, map_map, firstn_map. reflexivity.
  - rewrite Hout, written_prefix_length. unfold requests_made.
    destruct (first_failure os); lia.
  - unfold requests_made. destruct (first_failure os) as [k|] eqn:E.
    + apply first_failure_bound in E. lia.
    + lia.
Qed.

(** The requests of a run: one for each input line up to and including the
    first line that fails, in the order of the lines, each to the search
    address with the locale [en], the given credentials and the query of
    its line; no request follows a failure. *)
Theorem requests_follow_lines (taxonomy_filename : str) (tax_fh : list str)
    (output_filename : str) (w : World Net) :
  let os := outcomes_of (net w) tax_fh in
  let run := run_file taxonomy_filename tax_fh output_filename user key w in
  sent (snd run)
  = sent w
    ++ map (fun line =>
              (search_url,
               {| param_l10n := py "en"; param_user := user;
                  param_key := key;
                  param_text := query_from_wordlist (words_of_line line) |}))
           (firstn (requests_made os) tax_fh)
  /\ requests_made os
     = (List.length (result_fh (snd run))
        + match first_failure os with None => 0 | Some _ => 1 end)%nat
  /\ (requests_made os <= List.length tax_fh)%nat.
Proof. apply requests_follow_lines_aux. Qed.

(** A body that does not parse: the exception leaves the run at once; the
    lines written before stay, the request of the failing line is the last
    one, and nothing is logged about the failure: the new records are all
    informational. *)
Theorem malformed_body_raises (taxonomy_filename : str) (tax_fh : list str)
    (output_filename : str) (w : World Net) (i : nat) (r : Response) :
  first_failure (outcomes_of (net w) tax_fh) = Some i ->
  nth_error (responses_of (net w) tax_fh) i = Some r ->
  status_code r = 200%Z ->
  fromstring (content r) = None ->
  let run := run_file taxonomy_filename tax_fh output_filename user key w in
  fst run = Raised
  /\ List.length (result_fh (snd run)) = i
  /\ List.length (sent (snd run)) = (List.length (sent w) + S i)%nat
  /\ log (snd run)
     = log w ++ header_log taxonomy_filename output_filename
       ++ flat_map progress_log (seq 0 i)
  /\ Forall (fun record => fst record = INFO)
            (header_log taxonomy_filename output_filename
             ++ flat_map progress_log (seq 0 i)).
Proof.
  intros Hfirst Hr Hcode Hparse run.
  assert (Hnth : nth i (outcomes_of (net w) tax_fh) Malformed = Malformed).
  { apply nth_error_nth with (d := Malformed).
    unfold outcomes. rewrite nth_error_map. fold responses_of. rewrite Hr.
    cbn [option_map]. unfold outcome_of. now rewrite Hcode, Hparse. }
  destruct (write_passages_exact taxonomy_filename tax_fh output_filename w)
    as (Hexit & Hlog & _).
  destruct (requests_follow_lines_aux taxonomy_filename tax_fh
              output_filename w) as (Hsent & Hmade & Hle).
  fold run in Hexit, Hlog, Hsent, Hmade.
  rewrite Hfirst, Hnth in Hexit, Hlog. unfold requests_made in *.
  rewrite Hfirst in *.
  assert (Hout : List.length (result_fh (snd run)) = i) by lia.
  rewrite Hout in Hlog. cbn [failure_log] in Hlog.
  rewrite app_nil_r in Hlog.
  repeat split; auto.
  - rewrite Hsent, length_app, length_map, firstn_length_le; lia.
  - apply Forall_app. split; [repeat constructor|].
    apply Forall_flat_map, Forall_forall. intros k _.
    unfold progress_log. destruct (k mod 1000 =? 0)%nat; repeat constructor.
Qed.

Lemma replies_app (n : Net) (q1 q2 : list str) :
  replies requests_get user key n (q1 ++ q2)
  = replies requests_get user key n q1
    ++ replies requests_get user key (state_after n q1) q2.
Proof.
  revert n; induction q1 as [|q q1 IH]; intros n; [reflexivity|].
  cbn [app replies net_after].
  destruct (requests_get _ _ n) as [r n']. cbn [snd app].
  now rewrite IH.
Qed.

Lemma outcomes_app (n : Net) (part1 part2 : list str) :
  outcomes_of n (part1 ++ part2)
  = outcomes_of n part1
    ++ outcomes_of
         (state_after n (map query_from_wordlist (get_lines_from_file part1)))
         part2.
Proof.
  unfold outcomes, responses, get_lines_from_file.
  now rewrite !map_app, replies_app, map_app.
Qed.

Lemma written_prefix_app (a b : list LineOutcome) :
  written_prefix (a ++ b)
  = match first_failure a with
    | None => written_prefix a ++ written_prefix b
    | Some _ => written_prefix a
    end.
Proof.
  induction a as [|o a IH]; [reflexivity|].
  destruct o; cbn [app written_prefix first_failure]; try reflexivity.
  rewrite IH. destruct (first_failure a); reflexivity.
Qed.

Lemma first_failure_app (a b : list LineOutcome) (k : nat) :
  first_failure a = Some k ->
  first_failure (a ++ b) = Some k
  /\ nth k (a ++ b) Malformed = nth k a Malformed.
Proof.
  revert k; induction a as [|o a IH]; intros k; [discriminate|].
  destruct o; cbn [app first_failure];
    try (intros H; inversion H; split; reflexivity).
  destruct (first_failure a) as [j|]; [|discriminate].
  intros H; inversion H. destruct (IH j eq_refl) as (-> & Hn).
  split; [reflexivity | exact Hn].
Qed.

(** A file in two parts.  When the run on the first part meets no failure,
    the output for the whole file is the output for the first part followed
    by the output of a run on the second part that starts where the first
    run left the provider.  When the run on the first part meets a failure,
    the second part changes neither the output nor the exit. *)
Theorem run_on_appended_file (taxonomy_filename output_filename : str)
    (part1 part2 : list str) (w : World Net) :
  let run1 := run_file taxonomy_filename part1 output_filename user key w in
  let run := run_file taxonomy_filename (part1 ++ part2) output_filename
               user key w in
  (fst run1 = Exhausted ->
   result_fh (snd run)
   = result_fh (snd run1)
     ++ result_fh (snd (run_file taxonomy_filename part2 output_filename
                          user key (snd run1))))
  /\ (fst run1 <> Exhausted ->
      result_fh (snd run) = result_fh (snd run1) /\ fst run = fst run1).
Proof.
  intros run1 run.
  destruct (write_passages_exact taxonomy_filename part1 output_filename w)
    as (Hexit1 & _ & Hnet1).
  destruct (write_passages_exact taxonomy_filename (part1 ++ part2)
              output_filename w) as (Hexit & _ & _).
  destruct (write_passages_spec html5 requests_get fromstring user key
              taxonomy_filename part1 output_filename w) as (Hout1 & _).
  destruct (write_passages_spec html5 requests_get fromstring user key
              taxonomy_filename (part1 ++ part2) output_filename w)
    as (Hout & _).
  destruct (write_passages_spec html5 requests_get fromstring user key
              taxonomy_filename part2 output_filename (snd run1))
    as (Hout2 & _).
  fold run1 in Hexit1, Hnet1, Hout1, Hout2. fold run in Hexit, Hout.
  rewrite Hout, Hout1, Hout2. rewrite outcomes_app, written_prefix_app.
  rewrite outcomes_app in Hexit.
  destruct (first_failure (outcomes_of (net w) part1)) as [k|] eqn:Ef.
  - split.
    + intros Hdone. rewrite Hdone in Hexit1.
      destruct (nth k (outcomes_of (net w) part1) Malformed); discriminate.
    + intros _. split; [reflexivity|].
      destruct (first_failure_app _ (outcomes_of
                  (state_after (net w)
                     (map query_from_wordlist (get_lines_from_file part1)))
                  part2) Ef) as (Hf & Hn).
      rewrite Hf, Hn in Hexit. now rewrite Hexit, Hexit1.
  - split; [|congruence].
    intros _. do 2 f_equal. rewrite Hnet1. unfold requests_made.
    rewrite Ef. f_equal.
    rewrite firstn_all2; [reflexivity|].
    unfold outcomes, responses.
    rewrite !length_map, replies_length, !length_map. reflexivity.
Qed.

End RunExtras.

Lemma malformed_body_raises_witness :
  let run := write_passages small_html5 garbage_get mock_fromstring
               (py "taxonomy.txt") file_garbage (py "out.jsonl")
               (py "user") (py "key") (initial_world 0%nat) in
  fst run = Raised
  /\ List.length (result_fh (snd run)) = 1%nat
  /\ List.length (sent (snd run)) = (0 + 2)%nat
  /\ log (snd run)
     = [] ++ header_log (py "taxonomy.txt") (py "out.jsonl")
       ++ flat_map progress_log (seq 0 1)
  /\ Forall (fun record => fst record = INFO)
            (header_log (py "taxonomy.txt") (py "out.jsonl")
             ++ flat_map progress_log (seq 0 1)).
Proof.
  apply (malformed_body_raises small_html5 garbage_get mock_fromstring
           (py "user") (py "key") (py "taxonomy.txt") file_garbage
           (py "out.jsonl") (initial_world 0%nat) (i := 1%nat)
           (r := garbage_answer search_url
                   (search_params (py "user") (py "key") (py "+garbage")))).
  - reflexivity.
  - reflexivity.
  - reflexivity.
  - reflexivity.
Defined.

Lemma run_on_appended_file_witness :
  result_fh (snd (write_passages small_html5 counting_get mock_fromstring
                    (py "taxonomy.txt") (firstn 2 file_quota ++ file_hello_foo)
                    (py "out.jsonl") (py "user") (py "key")
                    (initial_world 0%nat)))
  = result_fh (snd (write_passages small_html5 counting_get mock_fromstring
                      (py "taxonomy.txt") (firstn 2 file_quota)
                      (py "out.jsonl") (py "user") (py "key")
                      (initial_world 0%nat)))
    ++ result_fh
         (snd (write_passages small_html5 counting_get mock_fromstring
                 (py "taxonomy.txt") file_hello_foo (py "out.jsonl")
                 (py "user") (py "key")
                 (snd (write_passages small_html5 counting_get
                         mock_fromstring (py "taxonomy.txt")
                         (firstn 2 file_quota) (py "out.jsonl")
                         (py "user") (py "key") (initial_world 0%nat))))).
Proof.
  apply (run_on_appended_file small_html5 counting_get mock_fromstring
           (py "user") (py "key") (py "taxonomy.txt") (py "out.jsonl")
           (firstn 2 file_quota) file_hello_foo (initial_world 0%nat)).
  reflexivity.
Defined.

(** ** Passage Extractor: which passages, which text *)

(** A string is a passage of a tree exactly when it is the unescaped
    flattened text of a node tagged [title], [headline] or [passage] found
    in or below a node tagged [doc] of the tree whose first [lang] node
    reads [en]: nothing else is extracted and no such node is missed. *)
Theorem passage_membership (html5 : str -> option str) (tree : Element)
    (p : str) :
  In p (get_all_passages html5 tree)
  <-> exists doc element,
        In doc (iter None tree) /\ tag doc = py "doc"
        /\ first_lang doc = Some (Some (py "en"))
        /\ In element (iter None doc) /\ wanted_tag element = true
        /\ p = unescape html5 (gettext element).
Proof.
  rewrite get_all_passages_eq, in_map_iff. unfold candidates. split.
  - intros (e & <- & He). apply in_flat_map in He as (doc & Hdoc & He).
    rewrite iter_Some_filter in Hdoc. apply filter_In in Hdoc as [Hin Htag].
    apply str_eqb_eq in Htag.
    assert (Hen : first_lang doc = Some (Some (py "en"))).
    { apply candidates_of_doc_en. intros Hnil. now rewrite Hnil in He. }
    unfold candidates_of_doc in He. rewrite Hen, str_eqb_refl in He.
    apply filter_In in He as [He Hw].
    exists doc, e. auto 10.
  - intros (doc & e & Hin & Htag & Hen & He & Hw & ->).
    exists e. split; [reflexivity|].
    apply in_flat_map. exists doc. split.
    + rewrite iter_Some_filter. apply filter_In. split; [assumption|].
      now apply str_eqb_eq.
    + unfold candidates_of_doc. rewrite Hen, str_eqb_refl.
      apply filter_In. auto.
Qed.

Lemma passage_membership_witness :
  In (py "Hello World") (get_all_passages small_html5 tree_hello).
Proof.
  apply (passage_membership small_html5 tree_hello (py "Hello World")).
  exists (Elem (py "doc") None None
               [leaf "lang" "en"; leaf "title" "Hello World"]),
         (leaf "title" "Hello World").
  repeat split.
  - right. left. reflexivity.
  - right. right. left. reflexivity.
Defined.

Lemma list_sum_cons (x : nat) (l : list nat) :
  list_sum (x :: l) = (x + list_sum l)%nat.
Proof. reflexivity. Qed.

(** The flattened text of an element has as many characters as the texts
    of the element and of all the nodes below it, and the tails of the
    nodes below it, taken together: flattening neither drops nor repeats a
    character, and leaves out the element's own tail. *)
Theorem gettext_length (elem : Element) :
  List.length (gettext elem)
  = (list_sum (map (fun d => List.length (or_empty (text d)))
                   (iter None elem))
     + list_sum (map (fun d => List.length (tail_text d))
                     (descendants elem)))%nat.
Proof.
  induction elem as [tg tx tl cs IH] using Element_forall_ind.
  cbn [gettext]. rewrite gettext_fold, iter_None. unfold descendants.
  cbn [text children map]. rewrite length_app.
  rewrite list_sum_cons, <- Nat.add_assoc. f_equal.
  induction IH as [|c cs Hc _ IHcs]; [reflexivity|].
  cbn [flat_map]. rewrite !map_app, !list_sum_app, !length_app, IHcs, Hc.
  rewrite !(iter_None c). cbn [map]. rewrite !list_sum_cons.
  unfold descendants. lia.
Qed.

(** ** html.unescape: ampersands and numeric references *)

Section UnescapeExtras.

Variable html5 : str -> option str.


(** Unescaping works between ampersands: no reference runs across an
    ampersand, so the text before an ampersand and the text from it on are
    unescaped on their own; and text up to the first ampersand is kept as
    it is. *)
Theorem unescape_splits_at_ampersand (u t : str) :
  unescape html5 (u ++ 38 :: t) = unescape html5 u ++ unescape html5 (38 :: t)
  /\ (char_in 38 u = false ->
      unescape html5 (u ++ 38 :: t) = u ++ unescape html5 (38 :: t)).
Proof.
  assert (H : unescape html5 (u ++ 38 :: t) = unescape html5 u ++ unescape html5 (38 :: t)).
  { rewrite !unescape_scan. apply (@scan_app_ampersand html5 _ u t (le_n _)). }
  split; [exact H|].
  intros Hu. rewrite H. f_equal.
  unfold unescape. now rewrite Hu.
Qed.

(** An ampersand that starts no reference is kept: at the end of the text,
    or before a character that is neither [#] nor allowed in a name (a
    space, a tab, a newline, a form feed, [<], [&] or [;]). *)
Theorem bare_ampersand_kept (t : str) :
  match t with
  | [] => True
  | c :: _ => is_name_char c = false /\ c <> 35
  end ->
  unescape html5 (38 :: t) = 38 :: unescape html5 t.
Proof.
  intros Ht. rewrite !unescape_scan. apply scan_no_match.
  destruct t as [|c t]; [reflexivity|].
  destruct Ht as [Hname Hhash]. apply N.eqb_neq in Hhash.
  cbn [match_charref]. rewrite Hhash.
  cbn [span_upto]. rewrite Hname. reflexivity.
Qed.

End UnescapeExtras.

Lemma unescape_splits_at_ampersand_witness :
  unescape small_html5 (py "Fish " ++ 38 :: py "amp; chips")
  = py "Fish " ++ unescape small_html5 (38 :: py "amp; chips").
Proof.
  apply (unescape_splits_at_ampersand small_html5). reflexivity.
Defined.

Lemma bare_ampersand_kept_witness :
  unescape small_html5 (38 :: py " Jerry") = 38 :: unescape small_html5 (py " Jerry").
Proof.
  apply (bare_ampersand_kept small_html5). split; [reflexivity | discriminate].
Defined.

Lemma span_all (p : char -> bool) (s : str) :
  forallb p s = true -> span p s = (s, []).
Proof.
  induction s as [|c s IH]; [reflexivity|].
  cbn [forallb span]. intros H. apply andb_prop in H as [Hc Hs].
  now rewrite Hc, IH.
Qed.

Lemma rstrip_semicolons_digits (ds : str) :
  forallb is_digit ds = true ->
  rstrip_semicolons (ds ++ [59]) = ds.
Proof.
  intros Hds. unfold rstrip_semicolons.
  rewrite rev_app_distr. cbn [rev app lstrip_semicolons N.eqb Pos.eqb].
  rewrite <- forallb_rev in Hds.
  destruct (rev ds) as [|d r] eqn:E.
  - apply (f_equal (@rev N)) in E. rewrite rev_involutive in E.
    now subst.
  - cbn [forallb] in Hds. apply andb_prop in Hds as [Hd _].
    cbn [lstrip_semicolons].
    assert (Hsemi : (d =? 59) = false).
    { unfold is_digit in Hd. apply andb_prop in Hd as [_ Hd].
      apply N.leb_le in Hd. apply N.eqb_neq. lia. }
    rewrite Hsemi, <- E. apply rev_involutive.
Qed.

(** A decimal reference [&#...;] of at most 4300 digits (the longest
    decimal string that [int] converts on every CPython) to a code point
    that [html.unescape] accepts (not one it remaps, not a surrogate, not
    above U+10FFFF, not one it drops) is replaced by that code point, and
    the text after the semicolon is unescaped on its own. *)
Theorem decimal_reference (html5 : str -> option str) (ds rest : str) :
  ds <> [] -> (List.length ds <= 4300)%nat -> forallb is_digit ds = true ->
  invalid_charrefs (int_of_digits 10 ds) = None ->
  int_of_digits 10 ds < 0xD800
  \/ (0xDFFF < int_of_digits 10 ds /\ int_of_digits 10 ds <= 0x10FFFF) ->
  invalid_codepoints (int_of_digits 10 ds) = false ->
  unescape html5 (py "&#" ++ ds ++ 59 :: rest)
  = int_of_digits 10 ds :: unescape html5 rest.
Proof.
  intros Hne _ Hds Htable Hrange Hvalid.
  rewrite !unescape_scan.
  change (py "&#" ++ ds ++ 59 :: rest) with (38 :: 35 :: ds ++ 59 :: rest).
  destruct ds as [|d ds']; [congruence|]. clear Hne.
  assert (Hmatch : match_charref (35 :: (d :: ds') ++ 59 :: rest)
                   = Some (35 :: (d :: ds') ++ [59], rest)).
  { cbn [match_charref N.eqb Pos.eqb].
    rewrite span_app by reflexivity. rewrite (span_all _ _ Hds).
    reflexivity. }
  rewrite (@scan_match html5 _ _ _ Hmatch).
  assert (Hx : char_in d (py "xX") = false).
  { cbn [forallb] in Hds.
    apply andb_prop in Hds as [Hd _]. unfold is_digit in Hd.
    apply andb_prop in Hd as [_ Hd]. apply N.leb_le in Hd.
    unfold char_in. cbn [py map list_ascii_of_string existsb].
    rewrite !orb_false_r. apply orb_false_intro; apply N.eqb_neq;
      cbn; lia. }
  pose proof (rstrip_semicolons_digits _ Hds) as Hstrip.
  remember (int_of_digits 10 (d :: ds')) as num eqn:Enum.
  assert (Hreplace : replace_charref html5 (35 :: (d :: ds') ++ [59])
                     = [num]).
  { unfold replace_charref. cbn [N.eqb Pos.eqb app]. rewrite Hx.
    change (d :: ds' ++ [59]) with ((d :: ds') ++ [59]).
    rewrite Hstrip, <- Enum, Htable, Hvalid.
    replace (((0xD800 <=? num) && (num <=? 0xDFFF)) || (0x10FFFF <? num))
      with false; [reflexivity|].
    symmetry. apply orb_false_intro.
    - apply andb_false_iff. destruct Hrange as [H | [H _]].
      + left. apply N.leb_gt. exact H.
      + right. apply N.leb_gt. exact H.
    - apply N.ltb_ge. destruct Hrange as [H | [_ H]]; lia. }
  rewrite Hreplace. reflexivity.
Qed.

Lemma decimal_reference_witness :
  unescape small_html5 (py "&#" ++ py "233" ++ 59 :: py " fini")
  = int_of_digits 10 (py "233") :: unescape small_html5 (py " fini").
Proof.
  apply (@decimal_reference small_html5 (py "233") (py " fini")).
  - discriminate.
  - cbn. lia.
  - reflexivity.
  - reflexivity.
  - left. reflexivity.
  - reflexivity.
Defined.

Lemma invalid_charrefs_scalar (num : N) (v : str) :
  invalid_charrefs num = Some v ->
  Forall scalar_value v.
Proof.
  assert (Hbig : 0xFF < num -> invalid_charrefs num = None).
  { intros Hnum. destruct num as [|p]; [lia|].
    do 8 (destruct p as [p|p|]; try lia); reflexivity. }
  intros H.
  destruct (N.ltb_spec 0xFF num) as [Hlt | Hle];
    [rewrite (Hbig Hlt) in H; discriminate|].
  assert (Hnum : In num (map N.of_nat (List.seq 0 256))).
  { apply in_map_iff. exists (N.to_nat num). split; [lia|].
    apply in_seq. lia. }
  revert v H.
  assert (Hall : forallb
                   (fun n => match invalid_charrefs n with
                             | Some v =>
                                 forallb (fun c => (c <=? 0x10FFFF)
                                                   && ((c <? 0xD800)
                                                       || (0xDFFF <? c))) v
                             | None => true
                             end)
                   (map N.of_nat (List.seq 0 256)) = true)
    by (vm_compute; reflexivity).
  rewrite forallb_forall in Hall. specialize (Hall num Hnum).
  intros v H. rewrite H in Hall. rewrite forallb_forall in Hall.
  apply Forall_forall. intros c Hc. specialize (Hall c Hc).
  apply andb_prop in Hall as [H1 H2]. apply N.leb_le in H1.
  split; [exact H1|].
  apply orb_prop in H2 as [H2 | H2]; apply N.ltb_lt in H2; auto.
Qed.

Lemma numeric_reference_scalar (html5 : str -> option str) (g : str) :
  Forall scalar_value (replace_charref html5 (35 :: g)).
Proof.
  unfold replace_charref. cbn [N.eqb Pos.eqb].
  match goal with
  | |- context [invalid_charrefs ?n] => generalize n; intros num
  end.
  destruct (invalid_charrefs num) as [v|] eqn:E.
  - exact (invalid_charrefs_scalar _ E).
  - destruct (((0xD800 <=? num) && (num <=? 0xDFFF)) || (0x10FFFF <? num))
      eqn:Erange.
    + repeat constructor; unfold scalar_value; lia.
    + destruct (invalid_codepoints num); constructor; [|constructor].
      apply orb_false_elim in Erange as [Hsur Hbig].
      apply N.ltb_ge in Hbig. split; [exact Hbig|].
      apply andb_false_iff in Hsur as [H | H]; apply N.leb_gt in H; auto.
Qed.

Lemma span_split (p : char -> bool) (s : str) :
  fst (span p s) ++ snd (span p s) = s.
Proof.
  induction s as [|c s IH]; [reflexivity|].
  cbn [span]. destruct (p c); [|reflexivity].
  destruct (span p s). cbn [fst snd app] in *. now rewrite IH.
Qed.

Lemma span_upto_split (n : nat) (p : char -> bool) (s : str) :
  fst (span_upto n p s) ++ snd (span_upto n p s) = s.
Proof.
  revert s; induction n as [|n IH]; intros s; [destruct s; reflexivity|].
  destruct s as [|c s]; [reflexivity|].
  cbn [span_upto]. destruct (p c); [|reflexivity].
  specialize (IH s). destruct (span_upto n p s).
  cbn [fst snd app] in *. now rewrite IH.
Qed.

Lemma run_then_semicolon_split (a r g rest : str) :
  run_then_semicolon (a, r) = Some (g, rest) -> g ++ rest = a ++ r.
Proof.
  unfold run_then_semicolon. destruct (truthy a); [|discriminate].
  destruct r as [|x r]; cbn [opt_semicolon].
  - intros H; inversion H. now rewrite !app_nil_r.
  - destruct (x =? 59); intros H; inversion H; subst;
      now rewrite <- ?app_assoc, ?app_nil_r.
Qed.

(** The text of a match and the text after it make up the text after the
    ampersand. *)
Lemma match_charref_split (s g rest : str) :
  match_charref s = Some (g, rest) -> g ++ rest = s.
Proof.
  destruct s as [|c s1]; [discriminate|].
  cbn [match_charref]. destruct (c =? 35).
  - pose proof (span_split is_digit s1) as Hd.
    destruct (span is_digit s1) as [a r]; cbn [fst snd] in Hd.
    destruct (run_then_semicolon (a, r)) as [[g1 rest1]|] eqn:E1.
    + apply run_then_semicolon_split in E1.
      intros H; inversion H; subst. cbn [app]. now rewrite E1.
    + destruct s1 as [|x s2]; [discriminate|].
      destruct (char_in x (py "xX")); [|discriminate].
      pose proof (span_split is_hexdigit s2) as Hh.
      destruct (span is_hexdigit s2) as [a' r']; cbn [fst snd] in Hh.
      destruct (run_then_semicolon (a', r')) as [[g2 rest2]|] eqn:E2;
        [|discriminate].
      apply run_then_semicolon_split in E2.
      intros H; inversion H; subst. cbn [app]. now rewrite E2.
  - pose proof (span_upto_split 32 is_name_char (c :: s1)) as Hn.
    destruct (span_upto 32 is_name_char (c :: s1)) as [a r];
      cbn [fst snd] in Hn.
    intros H. apply run_then_semicolon_split in H. congruence.
Qed.

Section ScalarValues.

Variable html5 : str -> option str.

(** The table of named references holds scalar values only. *)
Hypothesis html5_scalar :
  forall name v, html5 name = Some v -> Forall scalar_value v.

Lemma longest_name_scalar (s : str) (x : nat) :
  Forall scalar_value s -> Forall scalar_value (longest_name html5 s x).
Proof.
  intros Hs.
  assert (Hamp : Forall scalar_value (py "&" ++ s)).
  { constructor; [|exact Hs]. unfold scalar_value. cbn. lia. }
  induction x as [|x IH]; [exact Hamp|].
  cbn [longest_name]. destruct x as [|x]; [exact Hamp|].
  destruct (html5 (firstn (S (S x)) s)) as [v|] eqn:E; [|exact IH].
  apply Forall_app. split; [exact (html5_scalar E)|].
  rewrite <- (firstn_skipn (S (S x)) s) in Hs.
  apply Forall_app in Hs. tauto.
Qed.

Lemma replace_charref_scalar (g : str) :
  Forall scalar_value g -> Forall scalar_value (replace_charref html5 g).
Proof.
  intros Hg. destruct g as [|c0 g]; [constructor|].
  destruct (c0 =? 35) eqn:E.
  - apply N.eqb_eq in E; subst. apply numeric_reference_scalar.
  - unfold replace_charref. rewrite E.
    destruct (html5 (c0 :: g)) as [v|] eqn:Ev;
      [exact (html5_scalar Ev) | now apply longest_name_scalar].
Qed.

Lemma charref_sub_scalar (fuel : nat) (s : str) :
  Forall scalar_value s -> Forall scalar_value (charref_sub html5 fuel s).
Proof.
  revert s; induction fuel as [|fuel IH]; intros s Hs; [exact Hs|].
  destruct s as [|c s]; [constructor|].
  inversion Hs as [|? ? Hc Hs']; subst.
  cbn [charref_sub]. destruct (c =? 38).
  - destruct (match_charref s) as [[g rest]|] eqn:E.
    + apply match_charref_split in E. subst s.
      apply Forall_app in Hs' as [Hg Hrest].
      apply Forall_app. split; [now apply replace_charref_scalar | auto].
    + constructor; auto.
  - constructor; auto.
Qed.

(** Unescaping keeps a text within the Unicode scalar values. *)
Lemma unescape_scalar (s : str) :
  Forall scalar_value s -> Forall scalar_value (unescape html5 s).
Proof.
  intros Hs. unfold unescape, scan.
  destruct (negb (char_in 38 s)); [exact Hs|].
  now apply charref_sub_scalar.
Qed.

Lemma gettext_scalar (elem : Element) :
  scalar_texts elem -> Forall scalar_value (gettext elem).
Proof.
  unfold scalar_texts.
  induction elem as [tg tx tl cs IH] using Element_forall_ind.
  intros Hall. cbn [gettext]. rewrite gettext_fold.
  apply Forall_app. split.
  - apply (Hall (Elem tg tx tl cs)). rewrite iter_None. now left.
  - apply Forall_flat_map, Forall_forall. intros c Hc.
    assert (Hsub : forall d, In d (iter None c) ->
                             In d (iter None (Elem tg tx tl cs))).
    { intros d Hd. rewrite iter_None. right. unfold descendants.
      apply in_flat_map. exists c. auto. }
    rewrite Forall_forall in IH.
    apply Forall_app. split.
    + apply (IH c Hc). intros d Hd. apply Hall, Hsub, Hd.
    + apply Hall, Hsub. rewrite iter_None. now left.
Qed.

Lemma iter_None_trans (d e tree : Element) :
  In d (iter None e) -> In e (iter None tree) -> In d (iter None tree).
Proof.
  intros Hd He. destruct (iter_subtree _ _ He) as (l1 & l2 & ->).
  apply in_or_app. right. apply in_or_app. now left.
Qed.

(** The passages of a tree hold Unicode scalar values only when the texts
    and tails of the tree do: flattening adds no character, and unescaping
    turns no reference into a surrogate or a value above U+10FFFF, so the
    passages can always be written as UTF-8. *)
Theorem passages_scalar (tree : Element) :
  scalar_texts tree ->
  Forall (Forall scalar_value) (get_all_passages html5 tree).
Proof.
  intros Hall. apply Forall_forall. intros p Hp.
  rewrite get_all_passages_eq in Hp. apply in_map_iff in Hp as (e & <- & He).
  unfold candidates in He. apply in_flat_map in He as (doc & Hdoc & He).
  rewrite iter_Some_filter in Hdoc. apply filter_In in Hdoc as [Hdoc _].
  assert (Hin : In e (iter None doc)).
  { unfold candidates_of_doc in He.
    destruct (first_lang doc) as [[l|]|]; try contradiction.
    destruct (str_eqb l (py "en")); [|contradiction].
    now apply filter_In in He as [He _]. }
  apply unescape_scalar, gettext_scalar.
  intros d Hd. apply Hall.
  apply (iter_None_trans _ _ _ Hd). exact (iter_None_trans _ _ _ Hin Hdoc).
Qed.

End ScalarValues.

Lemma small_html5_scalar (name v : str) :
  small_html5 name = Some v -> Forall scalar_value v.
Proof.
  unfold small_html5.
  repeat match goal with
         | |- context [if ?b then _ else _] => destruct b
         end;
    intros H; inversion H; subst;
    repeat constructor; vm_compute; congruence.
Qed.

Lemma passages_scalar_witness :
  Forall (Forall scalar_value) (get_all_passages small_html5 doc_amp).
Proof.
  apply (passages_scalar small_html5 small_html5_scalar).
  intros d Hd. vm_compute in Hd.
  destruct Hd as [<- | [<- | [<- | []]]]; split;
    apply Forall_forall; intros c Hc; vm_compute in Hc;
    repeat (destruct Hc as [<- | Hc]; [unfold scalar_value; lia|]);
    contradiction.
Defined.

(** ** Result Writer: the JSON line *)

Lemma hex_digit_printable (n : N) : 32 <= hex_digit n.
Proof. unfold hex_digit. destruct (n <? 10); lia. Qed.

Lemma escape_char_printable (c : char) :
  Forall (fun x => 32 <= x) (escape_char c).
Proof.
  unfold escape_char.
  repeat match goal with
         | |- context [if ?b then _ else _] => destruct b eqn:?
         end;
    repeat constructor; try lia; try apply hex_digit_printable.
  match goal with
  | E : (c <? 32) = false |- _ => apply N.ltb_ge in E; exact E
  end.
Qed.

(** A JSON line holds no control character: every character of
    [json.dumps] of a list of strings is U+0020 or above, whatever the
    strings hold, so that a passage with a newline, a carriage return or a
    tab still gives one line of text. *)
Theorem json_dumps_printable (items : list str) :
  Forall (fun x => 32 <= x) (json_dumps items).
Proof.
  unfold json_dumps. apply Forall_app. split; [repeat constructor; lia|].
  apply Forall_app. split; [|repeat constructor; lia].
  apply Forall_forall. intros x Hx.
  apply join_In in Hx as [Hx | (p & Hp & Hx)].
  - vm_compute in Hx. destruct Hx as [<- | [<- | []]]; lia.
  - apply in_map_iff in Hp as (item & <- & _).
    unfold encode_basestring in Hx.
    apply in_app_or in Hx as [Hx | Hx]; [destruct Hx as [<- | []]; lia|].
    apply in_app_or in Hx as [Hx | Hx]; [|destruct Hx as [<- | []]; lia].
    apply in_flat_map in Hx as (c & _ & Hx).
    pose proof (escape_char_printable c) as Hc.
    rewrite Forall_forall in Hc. auto.
Qed.

Lemma hex_digit_inj (a b : N) :
  a < 16 -> b < 16 -> hex_digit a = hex_digit b -> a = b.
Proof.
  unfold hex_digit. intros Ha Hb.
  destruct (N.ltb_spec a 10), (N.ltb_spec b 10); lia.
Qed.

Lemma hex_pair_inj (c1 c2 : N) :
  c1 < 32 -> c2 < 32 ->
  hex_digit (c1 / 16) = hex_digit (c2 / 16) ->
  hex_digit (c1 mod 16) = hex_digit (c2 mod 16) ->
  c1 = c2.
Proof.
  intros H1 H2 Hq Hr.
  apply hex_digit_inj in Hq;
    [| apply N.Div0.div_lt_upper_bound; lia
     | apply N.Div0.div_lt_upper_bound; lia].
  apply hex_digit_inj in Hr; [| apply N.mod_lt; lia | apply N.mod_lt; lia].
  rewrite (N.div_mod c1 16), (N.div_mod c2 16) by lia.
  now rewrite Hq, Hr.
Qed.

(** The escapes form a prefix code: the escape of a character, followed by
    anything, tells the character and what follows. *)
Lemma escape_char_inj (c1 c2 : char) (t1 t2 : str) :
  escape_char c1 ++ t1 = escape_char c2 ++ t2 -> c1 = c2 /\ t1 = t2.
Proof.
  unfold escape_char.
  repeat match goal with
         | |- context [if ?b then _ else _] => destruct b eqn:?
         end;
    cbn [app]; intros H; inversion H; subst;
    repeat match goal with
           | E : (_ =? _) = true |- _ => apply N.eqb_eq in E
           | E : (_ =? _) = false |- _ => apply N.eqb_neq in E
           | E : (_ <? _) = true |- _ => apply N.ltb_lt in E
           | E : (_ <? _) = false |- _ => apply N.ltb_ge in E
           end;
    try (split; [congruence | reflexivity]);
    try congruence; try lia.
  split; [|reflexivity]. now apply hex_pair_inj.
Qed.

Lemma escape_char_head (c : char) (t u : str) :
  escape_char c ++ t <> 34 :: u.
Proof.
  unfold escape_char.
  repeat match goal with
         | |- context [if ?b then _ else _] => destruct b eqn:?
         end;
    cbn [app]; intros H; inversion H; subst.
  match goal with
  | E : (34 =? 34) = false |- _ => discriminate E
  end.
Qed.

Lemma escaped_string_inj (s1 s2 t1 t2 : str) :
  flat_map escape_char s1 ++ 34 :: t1 = flat_map escape_char s2 ++ 34 :: t2 ->
  s1 = s2 /\ t1 = t2.
Proof.
  revert s2; induction s1 as [|c1 s1 IH]; intros [|c2 s2];
    cbn [flat_map app].
  - intros H; inversion H. auto.
  - rewrite <- app_assoc. intros H. symmetry in H.
    now apply escape_char_head in H.
  - rewrite <- app_assoc. intros H. now apply escape_char_head in H.
  - rewrite <- !app_assoc. intros H.
    apply escape_char_inj in H as [-> H].
    apply IH in H as [-> ->]. auto.
Qed.

Lemma encode_basestring_inj (s1 s2 t1 t2 : str) :
  encode_basestring s1 ++ t1 = encode_basestring s2 ++ t2 ->
  s1 = s2 /\ t1 = t2.
Proof.
  unfold encode_basestring. cbn [app]. rewrite <- !app_assoc. cbn [app].
  intros H. inversion H as [H']. now apply escaped_string_inj in H'.
Qed.

Lemma joined_tail_inj (r1 r2 : list str) (t1 t2 : str) :
  flat_map (fun x => py ", " ++ x) (map encode_basestring r1) ++ 93 :: t1
  = flat_map (fun x => py ", " ++ x) (map encode_basestring r2) ++ 93 :: t2 ->
  r1 = r2 /\ t1 = t2.
Proof.
  revert r2; induction r1 as [|x1 r1 IH]; intros [|x2 r2];
    cbn [map flat_map app].
  - intros H; inversion H. auto.
  - intros H. vm_compute in H. discriminate.
  - intros H. vm_compute in H. discriminate.
  - rewrite <- !app_assoc.
    change (py ", " ++ ?x) with (44 :: 32 :: x).
    intros H. inversion H as [H'].
    rewrite <- !app_assoc in H'. cbn [app] in H'.
    apply escaped_string_inj in H' as [-> H'].
    apply IH in H' as [-> ->]. auto.
Qed.

(** The JSON line determines the list of passages: two lists of strings
    with the same [json.dumps] are the same list, so that the output line
    can be read back without loss. *)
Theorem json_dumps_injective (items1 items2 : list str) :
  json_dumps items1 = json_dumps items2 -> items1 = items2.
Proof.
  unfold json_dumps. cbn [app]. intros H. inversion H as [H']. clear H.
  destruct items1 as [|x1 r1], items2 as [|x2 r2]; [reflexivity | | |].
  - cbn [map] in H'. rewrite join_cons in H'.
    unfold encode_basestring in H'. cbn in H'. discriminate.
  - cbn [map] in H'. rewrite join_cons in H'.
    unfold encode_basestring in H'. cbn in H'. discriminate.
  - cbn [map] in H'. rewrite !join_cons, <- !app_assoc in H'.
    apply encode_basestring_inj in H' as [-> H'].
    apply joined_tail_inj in H' as [-> _]. reflexivity.
Qed.

Lemma json_dumps_injective_witness :
  [py "a"; py "b"] = [py "a"] ++ [py "b"].
Proof.
  apply json_dumps_injective. reflexivity.
Defined.

Lemma blank_line_iff_witness :
  words_of_line [9; 160; 32; 10] = []
  /\ query_from_wordlist (words_of_line [9; 160; 32; 10]) = [].
Proof.
  split; apply (blank_line_iff [9; 160; 32; 10]); reflexivity.
Defined.

Lemma run_exit_status_witness :
  fst (write_passages small_html5 mock_get mock_fromstring
         (py "taxonomy.txt") file_hello_foo (py "out.jsonl")
         (py "user") (py "key") (initial_world tt)) = Returned
  /\ fst (write_passages small_html5 mock_get mock_fromstring
            (py "taxonomy.txt") (firstn 4 file_quota) (py "out.jsonl")
            (py "user") (py "key") (initial_world tt)) = Exhausted.
Proof.
  split.
  - apply (run_exit_status small_html5 mock_get mock_fromstring
             (py "user") (py "key") (py "taxonomy.txt") file_hello_foo
             (py "out.jsonl") (initial_world tt)).
    exists 1%nat. split; [reflexivity|]. left. exists 403%Z. reflexivity.
  - apply (run_exit_status small_html5 mock_get mock_fromstring
             (py "user") (py "key") (py "taxonomy.txt") (firstn 4 file_quota)
             (py "out.jsonl") (initial_world tt)).
    reflexivity.
Defined.
